(** * FlutterBridge: the MessagePort bridge between a Flutter WebView host
      and the web page it shows.

    The development embeds the class [FlutterBridge] of [bridge.ts]: its
    three private fields, its constructor, the window listener
    [capturePort], the port listener [handleMessage] and the public methods
    [sendMessage], [subscribe], [getConnectionStatus], [isConnected] and
    [disconnect].  Methods are written in a small monad that threads the
    object's fields, records the calls made to the platform (console,
    ports, subscriber callbacks) and propagates exceptions. *)

From Stdlib Require Import String List Bool Arith ZArith Lia DecimalString.
From Stdlib Require Import Floats.SpecFloat.
Import ListNotations.
Open Scope string_scope.
Open Scope list_scope.
Set Warnings "-register-all".

(** ** JavaScript values *)

(** What the bridge can be handed as [unknown].  The bridge looks at a value
    in three ways only: its truthiness (the [||] in [log]), strict
    equality with a string ([event.data === captureCommand]) and whether
    the structured clone of [postMessage] accepts it. *)
Inductive Value : Type :=
| VUndefined
| VNull
| VBoolean (b : bool)
| VNumber (n : spec_float)
| VBigInt (z : Z)
| VString (s : string)
| VSymbol (id : nat)
| VFunction (id : nat)
| VArray (items : list Value)
| VObject (fields : list (string * Value)).

(** [ToBoolean]. *)
Definition truthy (v : Value) : bool :=
  match v with
  | VUndefined | VNull => false
  | VBoolean b => b
  | VNumber (S754_zero _) | VNumber S754_nan => false
  | VNumber _ => true
  | VBigInt z => negb (Z.eqb z 0)
  | VString s => negb (String.eqb s EmptyString)
  | VSymbol _ | VFunction _ | VArray _ | VObject _ => true
  end.

(** [a || b]. *)
Definition js_or (a b : Value) : Value := if truthy a then a else b.

(** [v === s] for a string [s]: only a string with the same characters
    is strictly equal to a string. *)
Definition strict_equals_string (v : Value) (s : string) : bool :=
  match v with
  | VString t => String.eqb t s
  | _ => false
  end.

(** The number value of an array length. *)
Definition number_of_nat (n : nat) : spec_float :=
  binary_normalize 53 1024 (Z.of_nat n) 0 false.

(** [`${n}`] for a non-negative integer. *)
Definition string_of_nat (n : nat) : string :=
  NilEmpty.string_of_uint (Nat.to_uint n).

(** The structured clone behind [MessagePort.postMessage] refuses symbols
    and functions, also inside arrays and objects. *)
Fixpoint structured_cloneable (v : Value) : bool :=
  match v with
  | VSymbol _ | VFunction _ => false
  | VArray items => forallb structured_cloneable items
  | VObject fields =>
      forallb (fun kv => match kv with (_, x) => structured_cloneable x end) fields
  | _ => true
  end.

(** The exception [postMessage] throws on a value that cannot be cloned. *)
Definition DataCloneError : Value :=
  VObject [("name", VString "DataCloneError")].

(** [TypeError], raised on a property access on [undefined]. *)
Definition TypeError : Value :=
  VObject [("name", VString "TypeError")].

(** ** Platform handles *)

(** A [MessagePort] and a subscriber callback are known to the bridge by
    reference only. *)
Definition Port := nat.
Definition MessageCallback := nat.

(** ** [Set<MessageCallback>] *)

(** The entry list of a JavaScript [Set]: entries stay in insertion order,
    [delete] and [clear] blank an entry out instead of moving the others,
    so that a [forEach] in progress keeps its position. *)
Module JsSet.

Definition t := list (option MessageCallback).

Definition empty : t := [].

Definition holds (x : MessageCallback) (e : option MessageCallback) : bool :=
  match e with
  | Some y => Nat.eqb y x
  | None => false
  end.

Definition has (x : MessageCallback) (s : t) : bool := existsb (holds x) s.

(** [add]: nothing when [x] is an entry already, else a new last entry. *)
Definition add (x : MessageCallback) (s : t) : t :=
  if has x s then s else s ++ [Some x].

(** [delete]: the first entry holding [x] is blanked. *)
Fixpoint delete (x : MessageCallback) (s : t) : t :=
  match s with
  | [] => []
  | e :: s' => if holds x e then None :: s' else e :: delete x s'
  end.

(** [clear]: every entry is blanked. *)
Definition clear (s : t) : t := map (fun _ => None) s.

(** The members, in iteration order. *)
Fixpoint values (s : t) : list MessageCallback :=
  match s with
  | [] => []
  | Some x :: s' => x :: values s'
  | None :: s' => values s'
  end.

(** [size]. *)
Definition size (s : t) : nat := length (values s).

(** The representation invariant: no callback is held by two entries. *)
Definition wf (s : t) : Prop := NoDup (values s).

End JsSet.

(** ** The bridge object and what it exchanges with the platform *)

(** [FlutterBridgeOptions]: every field optional. *)
Record FlutterBridgeOptions : Type := {
  opt_debug : option bool;
  opt_captureCommand : option string;
  opt_confirmationMessage : option string
}.

(** [Required<FlutterBridgeOptions>]. *)
Record Options : Type := {
  debug : bool;
  captureCommand : string;
  confirmationMessage : string
}.

(** The private fields of a [FlutterBridge]. *)
Record FlutterBridge : Type := {
  port : option Port;
  subscribers : JsSet.t;
  options : Options
}.

Record ConnectionStatus : Type := {
  hasPort : bool;
  subscribersCount : nat
}.

(** The fields of a [MessageEvent] the bridge reads. *)
Record MessageEvent : Type := {
  data : Value;
  origin : string;
  source : option nat;
  ports : list Port
}.

(** The two listeners the constructor can register on [window]. *)
Inductive Listener : Type :=
| CapturePortListener
| DebugListener.

(** Calls from the bridge to the platform, in program order. *)
Inductive Effect : Type :=
| ConsoleLog (message : string) (arg : Value)
| ConsoleWarn (message : string)
| WindowAddEventListener (type : string) (l : Listener)
| PortSetOnMessage (p : Port)
| PortPostMessage (p : Port) (payload : Value)
| PortClose (p : Port)
| Invoke (callback : MessageCallback) (payload : Value).

(** ** The method monad *)

Inductive Completion (A : Type) : Type :=
| Normal (a : A)
| Throw (error : Value).
Arguments Normal {A} a.
Arguments Throw {A} error.

(** How a method call ends: its completion, the fields afterwards and the
    platform calls it made. *)
Record Outcome (A : Type) : Type := {
  completion : Completion A;
  final : FlutterBridge;
  trace : list Effect
}.
Arguments completion {A} _.
Arguments final {A} _.
Arguments trace {A} _.

Definition M (A : Type) : Type := FlutterBridge -> Outcome A.

Definition ret {A} (a : A) : M A :=
  fun this => {| completion := Normal a; final := this; trace := [] |}.

Definition throw {A} (e : Value) : M A :=
  fun this => {| completion := Throw e; final := this; trace := [] |}.

Definition bind {A B} (m : M A) (k : A -> M B) : M B :=
  fun this =>
    let r := m this in
    match completion r with
    | Normal a =>
        let r' := k a (final r) in
        {| completion := completion r';
           final := final r';
           trace := trace r ++ trace r' |}
    | Throw e =>
        {| completion := Throw e; final := final r; trace := trace r |}
    end.

Declare Scope bridge_scope.
Delimit Scope bridge_scope with bridge.
Notation "x <- m ;; k" := (bind m (fun x => k))
  (at level 61, m at next level, right associativity) : bridge_scope.
Notation "m ;; k" := (bind m (fun _ => k))
  (at level 61, right associativity) : bridge_scope.
Open Scope bridge_scope.

Definition get_this : M FlutterBridge :=
  fun this => {| completion := Normal this; final := this; trace := [] |}.

Definition set_port (p : option Port) : M unit :=
  fun this =>
    {| completion := Normal tt;
       final := {| port := p;
                   subscribers := subscribers this;
                   options := options this |};
       trace := [] |}.

Definition set_subscribers (s : JsSet.t) : M unit :=
  fun this =>
    {| completion := Normal tt;
       final := {| port := port this;
                   subscribers := s;
                   options := options this |};
       trace := [] |}.

Definition emit (e : Effect) : M unit :=
  fun this => {| completion := Normal tt; final := this; trace := [e] |}.

Definition when (c : bool) (m : M unit) : M unit :=
  if c then m else ret tt.

(** [port.postMessage(v)]: the message is queued on the port, unless the
    structured clone refuses [v]. *)
Definition port_postMessage (p : Port) (v : Value) : M unit :=
  if structured_cloneable v then emit (PortPostMessage p v)
  else throw DataCloneError.

(** ** Diagnostics *)

(** [log(message, data)]: printed in debug mode only, a falsy [data]
    replaced by the empty string. *)
Definition log (message : string) (data : Value) : M unit :=
  this <- get_this ;;
  when (debug (options this))
    (emit (ConsoleLog ("[FlutterBridge] " ++ message)%string
                      (js_or data (VString EmptyString)))).

(** [warn(message)]: printed whatever the debug flag. *)
Definition warn (message : string) : M unit :=
  emit (ConsoleWarn ("[FlutterBridge] " ++ message)%string).

Definition is_some {A} (o : option A) : bool :=
  match o with
  | Some _ => true
  | None => false
  end.

(** ** Construction *)

(** The defaults of the constructor, overridden by the fields given. *)
Definition resolve_options (o : FlutterBridgeOptions) : Options :=
  {| debug := match opt_debug o with Some d => d | None => false end;
     captureCommand :=
       match opt_captureCommand o with Some c => c | None => "capturePort" end;
     confirmationMessage :=
       match opt_confirmationMessage o with
       | Some c => c
       | None => "portReceived"
       end |}.

(** The body of the constructor after the fields are initialised;
    [has_window] is [typeof window !== "undefined"]. *)
Definition constructor_body (has_window : bool) : M unit :=
  this <- get_this ;;
  if has_window then
    log "Инициализация FlutterBridge, подписка на window message" VUndefined ;;
    emit (WindowAddEventListener "message" CapturePortListener) ;;
    when (debug (options this))
      (emit (WindowAddEventListener "message" DebugListener))
  else
    warn "window недоступен (SSR?)".

Definition new_FlutterBridge (has_window : bool) (o : FlutterBridgeOptions)
  : Outcome unit :=
  constructor_body has_window
    {| port := None; subscribers := JsSet.empty; options := resolve_options o |}.

(** The listener of debug mode that logs every window message. *)
Definition debugListener (event : MessageEvent) : M unit :=
  log "Получено window message:"
    (VObject [("data", data event);
              ("origin", VString (origin event));
              ("source", VString (if is_some (source event)
                                  then "present" else "null"));
              ("ports", VNumber (number_of_nat (length (ports event))))]).

(** ** [capturePort] *)

(** [event.ports[0]] is read under a test that has seen an entry; on an
    empty list it would be [undefined] and the assignment of [onmessage]
    would fail. *)
Definition capturePort (event : MessageEvent) : M unit :=
  this <- get_this ;;
  when (debug (options this))
    (log "Проверка сообщения на capturePort:"
       (VObject [("data", data event);
                 ("hasPorts", VBoolean (Nat.ltb 0 (length (ports event))));
                 ("portsCount",
                  VNumber (number_of_nat (length (ports event))))])) ;;
  if strict_equals_string (data event) (captureCommand (options this))
     && (Nat.ltb 0 (length (ports event)))
  then
    log "✅ Flutter message port captured!" VUndefined ;;
    match nth_error (ports event) 0 with
    | Some p =>
        set_port (Some p) ;;
        emit (PortSetOnMessage p) ;;
        port_postMessage p (VString (confirmationMessage (options this))) ;;
        log ("Отправлено подтверждение '"
               ++ confirmationMessage (options this) ++ "'")%string
            VUndefined
    | None => set_port None ;; throw TypeError
    end
  else
    when (debug (options this))
      (log "❌ Сообщение не соответствует критериям capturePort" VUndefined).

(** ** [sendMessage] *)

(** The warning of a send without a port. *)
Definition port_not_initialized : string :=
  "❌ Flutter port not initialized. Cannot send message.".

Definition sendMessage (payload : Value) : M unit :=
  this <- get_this ;;
  when (debug (options this))
    (log "Попытка отправки сообщения:"
       (VObject [("data", payload);
                 ("hasPort", VBoolean (is_some (port this)));
                 ("portState",
                  VString (if is_some (port this) then "active" else "null"))])) ;;
  match port this with
  | Some p =>
      log "✅ Отправка сообщения во Flutter" VUndefined ;;
      port_postMessage p payload
  | None =>
      warn port_not_initialized ;;
      when (debug (options this))
        (warn "Возможные причины:" ;;
         warn "1. Flutter еще не отправил порт" ;;
         warn "2. Сообщение от Flutter имеет неправильный формат" ;;
         warn "3. Проблема с timing - сообщение отправляется слишком рано")
  end.

(** ** [subscribe] and the closure it returns *)

(** The arrow function [subscribe] returns, closed over [callback]. *)
Definition unsubscribe (callback : MessageCallback) : M unit :=
  this <- get_this ;;
  set_subscribers (JsSet.delete callback (subscribers this)) ;;
  this <- get_this ;;
  log ("Подписчик удален. Осталось: "
         ++ string_of_nat (JsSet.size (subscribers this)))%string
      VUndefined.

Definition subscribe (callback : MessageCallback) : M (M unit) :=
  this <- get_this ;;
  set_subscribers (JsSet.add callback (subscribers this)) ;;
  this <- get_this ;;
  log ("Подписчик добавлен. Всего: "
         ++ string_of_nat (JsSet.size (subscribers this)))%string
      VUndefined ;;
  ret (unsubscribe callback).

(** ** Status *)

Definition getConnectionStatus : M ConnectionStatus :=
  this <- get_this ;;
  ret {| hasPort := is_some (port this);
         subscribersCount := JsSet.size (subscribers this) |}.

Definition isConnected : M bool :=
  this <- get_this ;;
  ret (is_some (port this)).

(** ** [disconnect] *)

Definition disconnect : M unit :=
  this <- get_this ;;
  match port this with
  | Some p => emit (PortClose p) ;; set_port None
  | None => ret tt
  end ;;
  this <- get_this ;;
  set_subscribers (JsSet.clear (subscribers this)) ;;
  log "Bridge отключен" VUndefined.

(** ** [handleMessage] *)

(** A computation that may still be running when its fuel is spent. *)
Definition Partial (A : Type) : Type := FlutterBridge -> option (Outcome A).

(** [m] followed by the partial computation [k]. *)
Definition and_then {A B} (m : M A) (k : A -> Partial B) : Partial B :=
  fun this =>
    let r := m this in
    match completion r with
    | Normal a =>
        match k a (final r) with
        | Some r' =>
            Some {| completion := completion r';
                    final := final r';
                    trace := trace r ++ trace r' |}
        | None => None
        end
    | Throw e =>
        Some {| completion := Throw e; final := final r; trace := trace r |}
    end.

Section Dispatch.

(** What running a subscriber does: a subscriber is code of the caller,
    which may throw and may call the public methods of the bridge, so
    its run is a computation over the bridge like any other. *)
Variable body : MessageCallback -> Value -> M unit.

(** [callback(payload)]. *)
Definition invoke (callback : MessageCallback) (payload : Value) : M unit :=
  emit (Invoke callback payload) ;;
  body callback payload.

(** [this.subscribers.forEach(f)], from entry [index] on.  The entry list
    is read again after every call of [f]: entries blanked meanwhile are
    skipped, entries added meanwhile are visited. *)
Fixpoint forEach (fuel : nat) (f : MessageCallback -> M unit) (index : nat)
  : Partial unit :=
  match fuel with
  | 0 => fun _ => None
  | S fuel' =>
      fun this =>
        match nth_error (subscribers this) index with
        | None => Some (ret tt this)
        | Some None => forEach fuel' f (S index) this
        | Some (Some callback) =>
            and_then (f callback) (fun _ => forEach fuel' f (S index)) this
        end
  end.

Definition handleMessage (fuel : nat) (event : MessageEvent) : Partial unit :=
  and_then (log "Message received from Flutter:" (data event))
    (fun _ =>
       forEach fuel (fun callback => invoke callback (data event)) 0).

End Dispatch.

(** The subscribers called by a trace, in order. *)
Fixpoint invocations (tr : list Effect) : list (MessageCallback * Value) :=
  match tr with
  | [] => []
  | Invoke callback payload :: tr' => (callback, payload) :: invocations tr'
  | _ :: tr' => invocations tr'
  end.

(** The messages posted by a trace, in order. *)
Fixpoint posts (tr : list Effect) : list (Port * Value) :=
  match tr with
  | [] => []
  | PortPostMessage p payload :: tr' => (p, payload) :: posts tr'
  | _ :: tr' => posts tr'
  end.

(** The ports closed by a trace, in order. *)
Fixpoint closes (tr : list Effect) : list Port :=
  match tr with
  | [] => []
  | PortClose p :: tr' => p :: closes tr'
  | _ :: tr' => closes tr'
  end.

(** Console output. *)
Definition is_diagnostic (e : Effect) : bool :=
  match e with
  | ConsoleLog _ _ | ConsoleWarn _ => true
  | _ => false
  end.

(** Console output at warning level. *)
Definition is_warning (e : Effect) : bool :=
  match e with
  | ConsoleWarn _ => true
  | _ => false
  end.

(** A subscriber that, on this payload, returns normally and leaves the
    registry as it found it.  Whatever else it does with the bridge (a
    reply through [sendMessage], say) makes no call of a subscriber: no
    public method does. *)
Definition orderly (body : MessageCallback -> Value -> M unit)
  (callback : MessageCallback) (payload : Value) : Prop :=
  forall this,
    completion (body callback payload this) = Normal tt
    /\ subscribers (final (body callback payload this)) = subscribers this
    /\ invocations (trace (body callback payload this)) = [].

(** ** Sequences of calls *)

(** [m] called [n] times in a row. *)
Fixpoint times (n : nat) (m : M unit) : M unit :=
  match n with
  | 0 => ret tt
  | S n' => m ;; times n' m
  end.

(** What the page and the host can do to a bridge between two messages. *)
Inductive Call : Type :=
| CallCapturePort (event : MessageEvent)
| CallSendMessage (payload : Value)
| CallSubscribe (callback : MessageCallback)
| CallUnsubscribe (callback : MessageCallback)
| CallGetConnectionStatus
| CallIsConnected
| CallDisconnect.

Definition perform (c : Call) : M unit :=
  match c with
  | CallCapturePort event => capturePort event
  | CallSendMessage payload => sendMessage payload
  | CallSubscribe callback => subscribe callback ;; ret tt
  | CallUnsubscribe callback => unsubscribe callback
  | CallGetConnectionStatus => getConnectionStatus ;; ret tt
  | CallIsConnected => isConnected ;; ret tt
  | CallDisconnect => disconnect
  end.

(** The bridges a program can hold: a fresh one, or one after a call. *)
Inductive reachable : FlutterBridge -> Prop :=
| reachable_new has_window o :
    reachable (final (new_FlutterBridge has_window o))
| reachable_call this c :
    reachable this -> reachable (final (perform c this)).

(** ** Inputs used in examples *)

(** [new FlutterBridge()] in a browser. *)
Definition no_options : FlutterBridgeOptions :=
  {| opt_debug := None;
     opt_captureCommand := None;
     opt_confirmationMessage := None |}.

(** The exported singleton, [new FlutterBridge({ debug: false })]. *)
Definition flutterBridge (has_window : bool) : FlutterBridge :=
  final (new_FlutterBridge has_window
           {| opt_debug := Some false;
              opt_captureCommand := None;
              opt_confirmationMessage := None |}).

(** The handshake of the host: [postWebMessage('capturePort', [p])]. *)
Definition handshake (ps : list Port) : MessageEvent :=
  {| data := VString "capturePort";
     origin := "flutter";
     source := None;
     ports := ps |}.

(** A message that arrives on the port. *)
Definition inbound (payload : Value) : MessageEvent :=
  {| data := payload; origin := "flutter"; source := None; ports := [] |}.

(** Subscriber 1 answers every message with an acknowledgement, the
    others just return. *)
Definition first_replies : MessageCallback -> Value -> M unit :=
  fun callback _ =>
    if Nat.eqb callback 1 then sendMessage (VString "ack") else ret tt.

(** Subscriber 1 throws on every message, the others just return. *)
Definition first_throws : MessageCallback -> Value -> M unit :=
  fun callback _ =>
    if Nat.eqb callback 1 then throw (VString "boom") else ret tt.

(** Subscriber 1 disconnects the bridge on every message, the others
    just return. *)
Definition first_disconnects : MessageCallback -> Value -> M unit :=
  fun callback _ =>
    if Nat.eqb callback 1 then disconnect else ret tt.

(** A bridge with subscribers 1 and 2, in this order, and no port. *)
Definition two_subscribers : FlutterBridge :=
  final (subscribe 2 (final (subscribe 1 (flutterBridge true)))).

(** ** Sessions of calls *)

(** The calls of [cs] made one after the other, each from the top level of
    the page: an exception ends the call that raised it, not the ones that
    follow. *)
Fixpoint session (cs : list Call) : M unit :=
  match cs with
  | [] => ret tt
  | c :: cs' =>
      fun this =>
        let r := perform c this in
        let r' := session cs' (final r) in
        {| completion := Normal tt;
           final := final r';
           trace := trace r ++ trace r' |}
  end.

(** The test of [capturePort] on an event. *)
Definition qualifies (o : Options) (event : MessageEvent) : bool :=
  strict_equals_string (data event) (captureCommand o)
  && Nat.ltb 0 (length (ports event)).

(** Whether [callback] is registered after the calls [cs], read off the
    calls alone: the last [subscribe], [unsubscribe] of it or [disconnect]
    decides. *)
Definition registered_after (callback : MessageCallback) (cs : list Call)
  (before : bool) : bool :=
  fold_left
    (fun registered c =>
       match c with
       | CallSubscribe x => if Nat.eqb x callback then true else registered
       | CallUnsubscribe x => if Nat.eqb x callback then false else registered
       | CallDisconnect => false
       | _ => registered
       end)
    cs before.

(** The port bound after the calls [cs], read off the calls alone: the
    last accepted handshake or [disconnect] decides. *)
Definition bound_after (o : Options) (cs : list Call) (before : option Port)
  : option Port :=
  fold_left
    (fun bound c =>
       match c with
       | CallCapturePort event =>
           if qualifies o event then nth_error (ports event) 0 else bound
       | CallDisconnect => None
       | _ => bound
       end)
    cs before.

(** Console output at log level. *)
Definition is_log (e : Effect) : bool :=
  match e with
  | ConsoleLog _ _ => true
  | _ => false
  end.

(** ** The window *)

(** The listeners a trace has added to [window] for [type]. *)
Fixpoint added_listeners (type : string) (tr : list Effect) : list Listener :=
  match tr with
  | [] => []
  | WindowAddEventListener type' l :: tr' =>
      if String.eqb type' type then l :: added_listeners type tr'
      else added_listeners type tr'
  | _ :: tr' => added_listeners type tr'
  end.

(** The function behind each listener. *)
Definition listener_body (l : Listener) (event : MessageEvent) : M unit :=
  match l with
  | CapturePortListener => capturePort event
  | DebugListener => debugListener event
  end.

(** [window] dispatches a message event: the listeners run in the order
    they were added; an exception in one is reported by the browser and
    does not keep the next from running. *)
Fixpoint dispatchEvent (ls : list Listener) (event : MessageEvent) : M unit :=
  match ls with
  | [] => ret tt
  | l :: ls' =>
      fun this =>
        let r := listener_body l event this in
        let r' := dispatchEvent ls' event (final r) in
        {| completion := Normal tt;
           final := final r';
           trace := trace r ++ trace r' |}
  end.

(** A page: a bridge and the message listeners its constructor left on
    [window]. *)
Record Page : Type := {
  bridge : FlutterBridge;
  listeners : list Listener
}.

(** The page after [new FlutterBridge(o)]. *)
Definition open_page (has_window : bool) (o : FlutterBridgeOptions) : Page :=
  let r := new_FlutterBridge has_window o in
  {| bridge := final r; listeners := added_listeners "message" (trace r) |}.

(** What happens to a page: the host posts a message to the window, or the
    page calls a public method of the bridge. *)
Inductive Input : Type :=
| WindowMessage (event : MessageEvent)
| PageSendMessage (payload : Value)
| PageSubscribe (callback : MessageCallback)
| PageUnsubscribe (callback : MessageCallback)
| PageGetConnectionStatus
| PageIsConnected
| PageDisconnect.

Definition react (ls : list Listener) (i : Input) : M unit :=
  match i with
  | WindowMessage event => dispatchEvent ls event
  | PageSendMessage payload => perform (CallSendMessage payload)
  | PageSubscribe callback => perform (CallSubscribe callback)
  | PageUnsubscribe callback => perform (CallUnsubscribe callback)
  | PageGetConnectionStatus => perform CallGetConnectionStatus
  | PageIsConnected => perform CallIsConnected
  | PageDisconnect => perform CallDisconnect
  end.

(** The inputs one after the other, as [session] does for calls. *)
Fixpoint page_session (ls : list Listener) (inputs : list Input) : M unit :=
  match inputs with
  | [] => ret tt
  | i :: inputs' =>
      fun this =>
        let r := react ls i this in
        let r' := page_session ls inputs' (final r) in
        {| completion := Normal tt;
           final := final r';
           trace := trace r ++ trace r' |}
  end.

(** ** More inputs used in examples *)

(** Subscriber 1 unsubscribes itself at its first message, the others just
    return. *)
Definition first_unsubscribes_itself : MessageCallback -> Value -> M unit :=
  fun callback _ =>
    if Nat.eqb callback 1 then unsubscribe 1 else ret tt.

(** A bridge in debug mode with subscribers 1 and 2 and no port. *)
Definition two_subscribers_debug : FlutterBridge :=
  {| port := None;
     subscribers := [Some 1; Some 2];
     options := {| debug := true;
                   captureCommand := "capturePort";
                   confirmationMessage := "portReceived" |} |}.

(** The bridge with subscribers 1 and 2 after the handshake on port 5. *)
Definition two_subscribers_connected : FlutterBridge :=
  final (capturePort (handshake [5]) two_subscribers).

(** Subscriber 2 unsubscribes and subscribes again the first time it is
    called (as long as the Set has lost no entry), the others just
    return. *)
Definition second_resubscribes_once : MessageCallback -> Value -> M unit :=
  fun callback _ this =>
    if Nat.eqb callback 2 && Nat.eqb (length (subscribers this)) 2
    then (unsubscribe 2 ;; subscribe 2 ;; ret tt) this
    else ret tt this.

(** * Properties *)

(** ** The entry list *)

Module JsSetFacts.
Import JsSet.

Lemma has_spec x s : has x s = true <-> In x (values s).
Proof.
  induction s as [|[y|] s IH]; simpl.
  - split; [discriminate | tauto].
  - rewrite orb_true_iff, IH, Nat.eqb_eq. tauto.
  - exact IH.
Qed.

Lemma has_false x s : has x s = false <-> ~ In x (values s).
Proof.
  rewrite <- has_spec. destruct (has x s); split; congruence.
Qed.

Lemma values_app s s' : values (s ++ s') = values s ++ values s'.
Proof.
  induction s as [|[y|] s IH]; simpl; congruence.
Qed.

Lemma add_present x s : has x s = true -> add x s = s.
Proof. unfold add. now intros ->. Qed.

Lemma has_add_same x s : has x (add x s) = true.
Proof.
  unfold add. destruct (has x s) eqn:E; [exact E|].
  apply has_spec. rewrite values_app. apply in_or_app. right. now left.
Qed.

Lemma has_add_other x y s : y <> x -> has y (add x s) = has y s.
Proof.
  intros N. unfold add. destruct (has x s); [reflexivity|].
  unfold has. rewrite existsb_app. simpl.
  destruct (Nat.eqb_spec x y); [congruence|].
  now rewrite !orb_false_r.
Qed.

Lemma add_wf x s : wf s -> wf (add x s).
Proof.
  unfold wf, add. intros W. destruct (has x s) eqn:E; [exact W|].
  rewrite values_app. simpl.
  apply NoDup_app; [exact W | repeat constructor; simpl; tauto |].
  intros y Hy [<-|[]]. apply has_false in E. contradiction.
Qed.

Lemma size_add_present x s : has x s = true -> size (add x s) = size s.
Proof. intros H. now rewrite add_present. Qed.

Lemma delete_absent x s : has x s = false -> delete x s = s.
Proof.
  induction s as [|e s IH]; simpl; [reflexivity|].
  destruct (holds x e); [discriminate|]. simpl. intros H. now rewrite IH.
Qed.

Lemma values_delete_incl x y s : In y (values (delete x s)) -> In y (values s).
Proof.
  induction s as [|[z|] s IH]; simpl; [tauto| |exact IH].
  destruct (Nat.eqb_spec z x); simpl; tauto.
Qed.

Lemma has_delete_same x s : wf s -> has x (delete x s) = false.
Proof.
  unfold wf. induction s as [|[z|] s IH]; simpl; intros W; [reflexivity| |auto].
  destruct (Nat.eqb_spec z x) as [->|N]; simpl.
  - apply has_false. now inversion W.
  - destruct (Nat.eqb_spec z x); [contradiction|].
    apply IH. now inversion W.
Qed.

Lemma has_delete_other x y s : y <> x -> has y (delete x s) = has y s.
Proof.
  intros N. induction s as [|[z|] s IH]; simpl; [reflexivity| |exact IH].
  destruct (Nat.eqb_spec z x) as [->|]; simpl.
  - destruct (Nat.eqb_spec x y); [congruence | reflexivity].
  - now rewrite IH.
Qed.

Lemma delete_wf x s : wf s -> wf (delete x s).
Proof.
  unfold wf. induction s as [|[z|] s IH]; simpl; intros W; [exact W| |auto].
  inversion W as [|? ? Hz W']; subst.
  destruct (Nat.eqb_spec z x); simpl; [exact W'|].
  constructor; [|auto]. intros H. apply Hz. eapply values_delete_incl, H.
Qed.

Lemma delete_delete x s : wf s -> delete x (delete x s) = delete x s.
Proof. intros W. apply delete_absent, has_delete_same, W. Qed.

Lemma values_clear s : values (clear s) = [].
Proof. induction s as [|e s IH]; simpl; [reflexivity | exact IH]. Qed.

Lemma size_clear s : size (clear s) = 0.
Proof. unfold size. now rewrite values_clear. Qed.

Lemma clear_clear s : clear (clear s) = clear s.
Proof. unfold clear. rewrite map_map. reflexivity. Qed.

Lemma clear_wf s : wf (clear s).
Proof. unfold wf. rewrite values_clear. constructor. Qed.

Lemma empty_wf : wf empty.
Proof. constructor. Qed.

(** An entry of the list is a member or a blank. *)
Lemma nth_error_values s i x :
  nth_error s i = Some (Some x) -> In x (values s).
Proof.
  revert i. induction s as [|[y|] s IH]; intros [|i]; simpl; try discriminate.
  - intros [= ->]. now left.
  - intros H. right. eauto.
  - eauto.
Qed.

End JsSetFacts.

(** ** Diagnostics never throw and never touch the fields *)

Arguments number_of_nat : simpl never.
Arguments string_of_nat : simpl never.

Lemma log_run message d this :
  log message d this =
  {| completion := Normal tt;
     final := this;
     trace := if debug (options this)
              then [ConsoleLog ("[FlutterBridge] " ++ message)%string
                               (js_or d (VString EmptyString))]
              else [] |}.
Proof.
  unfold log, bind, get_this, when. simpl.
  destruct (debug (options this)); reflexivity.
Qed.

Lemma warn_run message this :
  warn message this =
  {| completion := Normal tt;
     final := this;
     trace := [ConsoleWarn ("[FlutterBridge] " ++ message)%string] |}.
Proof. reflexivity. Qed.

Lemma closes_spec p tr : In (PortClose p) tr -> In p (closes tr).
Proof.
  induction tr as [|e tr IH]; simpl; [tauto|].
  intros [->|H]; [now left|]. destruct e; simpl; auto.
Qed.

Lemma invocations_app tr tr' :
  invocations (tr ++ tr') = invocations tr ++ invocations tr'.
Proof.
  induction tr as [|[] tr IH]; simpl; congruence.
Qed.

(** Console output posts nothing, closes nothing and calls no subscriber. *)
Lemma diagnostic_silent tr :
  forallb is_diagnostic tr = true ->
  posts tr = [] /\ closes tr = [] /\ invocations tr = [].
Proof.
  induction tr as [|[] tr IH]; simpl; try discriminate; auto.
Qed.

(** ** [sendMessage] *)

Ltac fields this :=
  let p := fresh "p" in
  let s := fresh "s" in
  let d := fresh "d" in
  let cmd := fresh "cmd" in
  let msg := fresh "msg" in
  destruct this as [p s [d cmd msg]].

Lemma sendMessage_without_port payload this :
  port this = None ->
  completion (sendMessage payload this) = Normal tt
  /\ final (sendMessage payload this) = this
  /\ forallb is_diagnostic (trace (sendMessage payload this)) = true
  /\ exists attempt causes,
       trace (sendMessage payload this)
       = (if debug (options this) then [attempt] else [])
         ++ ConsoleWarn ("[FlutterBridge] " ++ port_not_initialized)%string
         :: (if debug (options this) then causes else [])
       /\ is_diagnostic attempt = true
       /\ forallb is_warning causes = true.
Proof.
  fields this. simpl. intros ->.
  destruct d; (split; [reflexivity|]); (split; [reflexivity|]);
    (split; [reflexivity|]); cbn.
  - eexists. eexists. split; [reflexivity|]. split; reflexivity.
  - exists (ConsoleWarn EmptyString), []. repeat split.
Qed.

(** The fields after [sendMessage] are the fields before it, also when
    [postMessage] throws. *)
Lemma sendMessage_final payload this : final (sendMessage payload this) = this.
Proof.
  fields this. unfold sendMessage, port_postMessage.
  destruct p, d, (structured_cloneable payload) eqn:E; cbn; rewrite ?E; reflexivity.
Qed.

(** C3: a send on a bridge without a port returns normally, whatever the
    payload, leaves the fields as they were, posts nothing and writes to
    the console only: the warning that the port is not initialised, alone
    when debug mode is off, after the log line of the attempt and before
    further warnings when it is on. *)
Theorem sendMessage_before_handshake_only_warns payload this :
  port this = None ->
  let r := sendMessage payload this in
  completion r = Normal tt
  /\ final r = this
  /\ port (final r) = port this
  /\ subscribers (final r) = subscribers this
  /\ forallb is_diagnostic (trace r) = true
  /\ posts (trace r) = []
  /\ In (ConsoleWarn ("[FlutterBridge] " ++ port_not_initialized)%string)
        (trace r)
  /\ (debug (options this) = false ->
      trace r
      = [ConsoleWarn ("[FlutterBridge] " ++ port_not_initialized)%string])
  /\ exists attempt causes,
       trace r
       = (if debug (options this) then [attempt] else [])
         ++ ConsoleWarn ("[FlutterBridge] " ++ port_not_initialized)%string
         :: (if debug (options this) then causes else [])
       /\ is_diagnostic attempt = true
       /\ forallb is_warning causes = true.
Proof.
  intros H r.
  destruct (sendMessage_without_port payload this H)
    as (Hc & Hf & Hd & attempt & causes & Ht & Ha & Hw).
  fold r in Hc, Hf, Hd, Ht.
  split; [exact Hc|]. split; [exact Hf|].
  split; [now rewrite Hf|]. split; [now rewrite Hf|].
  split; [exact Hd|]. split; [now apply diagnostic_silent|]. split.
  { rewrite Ht. apply in_or_app. right. now left. }
  split.
  { intros Hoff. rewrite Ht, Hoff. reflexivity. }
  exists attempt, causes. auto.
Qed.

Lemma sendMessage_before_handshake_witness :
  port (flutterBridge true) = None
  /\ completion (sendMessage (VFunction 0) (flutterBridge true)) = Normal tt.
Proof.
  split; [reflexivity|].
  exact (proj1 (sendMessage_before_handshake_only_warns
                  (VFunction 0) (flutterBridge true) eq_refl)).
Defined.

(** The warning of a missing port is in the trace of every send without a
    port. *)
Lemma sendMessage_without_port_warns payload this :
  port this = None ->
  In (ConsoleWarn ("[FlutterBridge] " ++ port_not_initialized)%string)
     (trace (sendMessage payload this)).
Proof.
  intros H.
  destruct (sendMessage_without_port payload this H)
    as (_ & _ & _ & attempt & causes & -> & _).
  apply in_or_app. right. now left.
Qed.

(** ** [capturePort] *)

Lemma strict_equals_string_spec v s :
  strict_equals_string v s = true <-> v = VString s.
Proof.
  destruct v; simpl; try (split; [discriminate | intros [=]]).
  rewrite String.eqb_eq. split; [now intros -> | now intros [= ->]].
Qed.

(** An event that passes the test of [capturePort]. *)
Lemma capturePort_accepts event this p rest :
  data event = VString (captureCommand (options this)) ->
  ports event = p :: rest ->
  let r := capturePort event this in
  completion r = Normal tt
  /\ final r = {| port := Some p;
                  subscribers := subscribers this;
                  options := options this |}
  /\ posts (trace r) = [(p, VString (confirmationMessage (options this)))]
  /\ closes (trace r) = []
  /\ invocations (trace r) = []
  /\ In (PortSetOnMessage p) (trace r).
Proof.
  intros Hd Hp. destruct event as [dat org src prts]. simpl in Hd, Hp. subst.
  fields this. unfold capturePort. cbn.
  rewrite String.eqb_refl.
  destruct d; cbn; repeat split; auto.
Qed.

(** [capturePort] never throws: the confirmation is a string, which the
    structured clone accepts. *)
Lemma capturePort_completes event this :
  completion (capturePort event this) = Normal tt.
Proof.
  fields this. destruct event as [dat org src prts].
  unfold capturePort. cbn.
  destruct (strict_equals_string dat cmd), prts, d; reflexivity.
Qed.

(** An event that fails the test of [capturePort]. *)
Lemma capturePort_ignores event this :
  strict_equals_string (data event) (captureCommand (options this))
  && Nat.ltb 0 (length (ports event)) = false ->
  let r := capturePort event this in
  completion r = Normal tt
  /\ final r = this
  /\ forallb is_diagnostic (trace r) = true.
Proof.
  intros H. fields this. unfold capturePort. cbn in *. rewrite H.
  destruct d; cbn; repeat split.
Qed.

(** C1: on a bridge without a port, an event whose payload is the capture
    command and which carries a port connects the bridge to the first port
    carried, installs the message handler on it and posts the confirmation
    message over it, once, and nothing else over any port. *)
Theorem capturePort_handshake event this p rest :
  completion (isConnected this) = Normal false ->
  data event = VString (captureCommand (options this)) ->
  ports event = p :: rest ->
  let r := capturePort event this in
  completion r = Normal tt
  /\ completion (isConnected (final r)) = Normal true
  /\ port (final r) = Some p
  /\ In (PortSetOnMessage p) (trace r)
  /\ posts (trace r) = [(p, VString (confirmationMessage (options this)))].
Proof.
  intros _ Hd Hp r.
  destruct (capturePort_accepts event this p rest Hd Hp)
    as (Hc & Hf & Hposts & _ & _ & Hset).
  fold r in Hc, Hf, Hposts, Hset.
  repeat split; auto; rewrite Hf; reflexivity.
Qed.

Lemma capturePort_handshake_witness :
  completion (isConnected (flutterBridge true)) = Normal false
  /\ port (final (capturePort (handshake [5; 6]) (flutterBridge true))) = Some 5
  /\ posts (trace (capturePort (handshake [5; 6]) (flutterBridge true)))
     = [(5, VString "portReceived")].
Proof.
  split; [reflexivity|].
  pose proof (capturePort_handshake (handshake [5; 6]) (flutterBridge true) 5 [6]
                eq_refl eq_refl eq_refl) as H.
  split; [exact (proj1 (proj2 (proj2 H))) | exact (proj2 (proj2 (proj2 (proj2 H))))].
Defined.

(** C6: an event with the capture command but no port, or with ports but
    another payload, leaves every field of the bridge as it was (so the port
    and [isConnected()] too), completes normally and posts nothing: all it
    can do is write to the console. *)
Theorem capturePort_rejects event this :
  (data event = VString (captureCommand (options this)) /\ ports event = [])
  \/ (ports event <> [] /\ data event <> VString (captureCommand (options this))) ->
  let r := capturePort event this in
  completion r = Normal tt
  /\ final r = this
  /\ port (final r) = port this
  /\ subscribers (final r) = subscribers this
  /\ isConnected (final r) = isConnected this
  /\ posts (trace r) = []
  /\ forallb is_diagnostic (trace r) = true.
Proof.
  intros H r.
  assert (G : strict_equals_string (data event) (captureCommand (options this))
              && Nat.ltb 0 (length (ports event)) = false).
  { destruct H as [[_ Hp] | [_ Hd]].
    - rewrite Hp. apply andb_false_r.
    - destruct (strict_equals_string (data event) (captureCommand (options this)))
        eqn:E; [|reflexivity].
      apply strict_equals_string_spec in E. contradiction. }
  destruct (capturePort_ignores event this G) as (Hc & Hf & Hdiag).
  fold r in Hc, Hf, Hdiag.
  repeat split; auto; try (rewrite Hf; reflexivity).
  now apply diagnostic_silent.
Qed.

Lemma capturePort_rejects_witness :
  final (capturePort (handshake []) two_subscribers) = two_subscribers
  /\ final (capturePort {| data := VString "hello"; origin := "flutter";
                           source := None; ports := [5] |} two_subscribers)
     = two_subscribers.
Proof.
  split.
  - refine (proj1 (proj2 (capturePort_rejects (handshake []) two_subscribers _))).
    left. split; reflexivity.
  - refine (proj1 (proj2 (capturePort_rejects _ two_subscribers _))).
    right. split; simpl; discriminate.
Defined.

(** C8: a second handshake on a connected bridge binds the new port in
    place of the old one, closes no port (the old one is not closed), posts
    the confirmation over the new port only, and the bridge stays
    connected. *)
Theorem capturePort_overwrites event this p_old p_new rest :
  port this = Some p_old ->
  data event = VString (captureCommand (options this)) ->
  ports event = p_new :: rest ->
  let r := capturePort event this in
  completion r = Normal tt
  /\ port (final r) = Some p_new
  /\ closes (trace r) = []
  /\ ~ In (PortClose p_old) (trace r)
  /\ posts (trace r) = [(p_new, VString (confirmationMessage (options this)))]
  /\ completion (isConnected (final r)) = Normal true.
Proof.
  intros _ Hd Hp r.
  destruct (capturePort_accepts event this p_new rest Hd Hp)
    as (Hc & Hf & Hposts & Hcl & _ & _).
  fold r in Hc, Hf, Hposts, Hcl.
  repeat split; auto; try (rewrite Hf; reflexivity).
  intros Hin. apply closes_spec in Hin. rewrite Hcl in Hin. exact Hin.
Qed.

Lemma capturePort_overwrites_witness :
  let connected := final (capturePort (handshake [5]) (flutterBridge true)) in
  port connected = Some 5
  /\ port (final (capturePort (handshake [8]) connected)) = Some 8
  /\ closes (trace (capturePort (handshake [8]) connected)) = [].
Proof.
  intros connected. split; [reflexivity|].
  pose proof (capturePort_overwrites (handshake [8]) connected 5 8 []
                eq_refl eq_refl eq_refl) as H.
  split; [exact (proj1 (proj2 H)) | exact (proj1 (proj2 (proj2 H)))].
Defined.

(** ** Status *)

Lemma isConnected_run this :
  isConnected this = ret (is_some (port this)) this.
Proof. reflexivity. Qed.

Lemma getConnectionStatus_run this :
  getConnectionStatus this =
  ret {| hasPort := is_some (port this);
         subscribersCount := JsSet.size (subscribers this) |} this.
Proof. reflexivity. Qed.

(** ** [disconnect] *)

Lemma disconnect_run this :
  let r := disconnect this in
  completion r = Normal tt
  /\ final r = {| port := None;
                  subscribers := JsSet.clear (subscribers this);
                  options := options this |}
  /\ closes (trace r) = match port this with Some p => [p] | None => [] end
  /\ posts (trace r) = []
  /\ invocations (trace r) = [].
Proof.
  fields this. destruct p, d; cbn; repeat split.
Qed.

(** C4: after [disconnect()], whatever the bridge was before, the port has
    been closed and dropped, [isConnected()] is false, the status is
    [{hasPort: false, subscribersCount: 0}], and a send returns normally
    with the warning of the missing port and posts nothing. *)
Theorem disconnect_releases_everything this :
  let r := disconnect this in
  completion r = Normal tt
  /\ closes (trace r) = match port this with Some p => [p] | None => [] end
  /\ port (final r) = None
  /\ JsSet.values (subscribers (final r)) = []
  /\ isConnected (final r) = ret false (final r)
  /\ getConnectionStatus (final r)
     = ret {| hasPort := false; subscribersCount := 0 |} (final r)
  /\ forall payload,
       let r' := sendMessage payload (final r) in
       completion r' = Normal tt
       /\ final r' = final r
       /\ posts (trace r') = []
       /\ In (ConsoleWarn ("[FlutterBridge] " ++ port_not_initialized)%string)
             (trace r').
Proof.
  intros r.
  destruct (disconnect_run this) as (Hc & Hf & Hcl & _ & _).
  fold r in Hc, Hf, Hcl.
  assert (Hp : port (final r) = None) by now rewrite Hf.
  assert (Hs : JsSet.size (subscribers (final r)) = 0)
    by (rewrite Hf; apply JsSetFacts.size_clear).
  split; [exact Hc|]. split; [exact Hcl|]. split; [exact Hp|].
  split; [rewrite Hf; apply JsSetFacts.values_clear|].
  split; [rewrite isConnected_run, Hp; reflexivity|].
  split; [rewrite getConnectionStatus_run, Hp, Hs; reflexivity|].
  intros payload r'.
  destruct (sendMessage_without_port payload (final r) Hp)
    as (Hc' & Hf' & Hd' & _).
  split; [exact Hc'|]. split; [exact Hf'|].
  split; [now apply diagnostic_silent|].
  now apply sendMessage_without_port_warns.
Qed.

(** C9: [disconnect()] on a bridge without a port returns normally, closes
    nothing and empties the registry; and a second [disconnect()] in a row
    returns normally and leaves the fields exactly as the first one left
    them: no port, all entries blank. *)
Theorem disconnect_without_port_and_twice this :
  let r1 := disconnect this in
  let r2 := disconnect (final r1) in
  (port this = None ->
   completion r1 = Normal tt
   /\ closes (trace r1) = []
   /\ port (final r1) = None
   /\ JsSet.size (subscribers (final r1)) = 0)
  /\ completion r2 = Normal tt
  /\ final r2 = final r1
  /\ port (final r2) = None
  /\ JsSet.values (subscribers (final r2)) = [].
Proof.
  intros r1 r2.
  destruct (disconnect_run this) as (Hc1 & Hf1 & Hcl1 & _ & _).
  destruct (disconnect_run (final r1)) as (Hc2 & Hf2 & _).
  fold r1 in Hc1, Hf1, Hcl1. fold r2 in Hc2, Hf2.
  assert (E : final r2 = final r1).
  { rewrite Hf2, Hf1. simpl. now rewrite JsSetFacts.clear_clear. }
  split; [|split; [exact Hc2 | split; [exact E|]]].
  - intros Hp. rewrite Hp in Hcl1. rewrite Hf1. simpl.
    rewrite JsSetFacts.size_clear. auto.
  - rewrite E, Hf1. simpl. now rewrite JsSetFacts.values_clear.
Qed.

Lemma disconnect_without_port_witness :
  port two_subscribers = None
  /\ JsSet.size (subscribers (final (disconnect two_subscribers))) = 0
  /\ final (disconnect (final (disconnect two_subscribers)))
     = final (disconnect two_subscribers).
Proof.
  split; [reflexivity|].
  pose proof (disconnect_without_port_and_twice two_subscribers) as H.
  split.
  - exact (proj2 (proj2 (proj2 (proj1 H eq_refl)))).
  - exact (proj1 (proj2 (proj2 H))).
Defined.

(** ** [subscribe] and [unsubscribe] *)

Lemma subscribe_run callback this :
  let r := subscribe callback this in
  completion r = Normal (unsubscribe callback)
  /\ final r = {| port := port this;
                  subscribers := JsSet.add callback (subscribers this);
                  options := options this |}
  /\ forallb is_diagnostic (trace r) = true.
Proof.
  fields this. destruct d; cbn; repeat split.
Qed.

Lemma unsubscribe_run callback this :
  let r := unsubscribe callback this in
  completion r = Normal tt
  /\ final r = {| port := port this;
                  subscribers := JsSet.delete callback (subscribers this);
                  options := options this |}
  /\ forallb is_diagnostic (trace r) = true.
Proof.
  fields this. destruct d; cbn; repeat split.
Qed.

(** Calling the closure on a bridge where the callback is not registered
    changes no field. *)
Lemma unsubscribe_absent callback this :
  JsSet.has callback (subscribers this) = false ->
  final (unsubscribe callback this) = this.
Proof.
  intros H. destruct (unsubscribe_run callback this) as (_ & -> & _).
  rewrite JsSetFacts.delete_absent by exact H. now destruct this.
Qed.

Lemma times_unsubscribe n callback this :
  JsSet.has callback (subscribers this) = false ->
  completion (times n (unsubscribe callback) this) = Normal tt
  /\ final (times n (unsubscribe callback) this) = this.
Proof.
  intros H. induction n as [|n [IHc IHf]]; [split; reflexivity|].
  simpl. unfold bind.
  destruct (unsubscribe_run callback this) as (-> & _ & _).
  rewrite (unsubscribe_absent callback this H). simpl.
  rewrite IHc, IHf. split; reflexivity.
Qed.

(** ** [handleMessage] *)

Lemma skipn_nth_error_Some {A} (l : list A) i x :
  nth_error l i = Some x -> skipn i l = x :: skipn (S i) l.
Proof.
  revert i. induction l as [|y l IH]; intros [|i]; simpl; try discriminate.
  - now intros [= ->].
  - intros H. now rewrite (IH i H).
Qed.

Lemma skipn_nth_error_None {A} (l : list A) i :
  nth_error l i = None -> skipn i l = [].
Proof.
  intros H. apply skipn_all2, nth_error_None, H.
Qed.

Section DispatchFacts.

Variable body : MessageCallback -> Value -> M unit.
Variable payload : Value.

Lemma invoke_run callback this :
  invoke body callback payload this =
  {| completion := completion (body callback payload this);
     final := final (body callback payload this);
     trace := Invoke callback payload :: trace (body callback payload this) |}.
Proof.
  unfold invoke, bind, emit. simpl.
  destruct (completion (body callback payload this)); reflexivity.
Qed.

Section Orderly.

Variable subs : JsSet.t.
Hypothesis all_orderly :
  forall callback, In callback (JsSet.values subs) ->
                   orderly body callback payload.

(** With orderly subscribers the loop calls the members left from [index]
    on, one after the other, and ends as soon as the fuel covers the
    entries left. *)
Lemma forEach_orderly fuel :
  forall index this,
    subscribers this = subs ->
    length subs - index < fuel ->
    exists r,
      forEach fuel (fun callback => invoke body callback payload) index this
      = Some r
      /\ completion r = Normal tt
      /\ subscribers (final r) = subs
      /\ invocations (trace r)
         = map (fun callback => (callback, payload))
               (JsSet.values (skipn index subs)).
Proof.
  induction fuel as [|fuel IH]; intros index this Hs Hlt; [lia|].
  simpl. rewrite Hs.
  destruct (nth_error subs index) as [[callback|]|] eqn:E.
  - assert (Hi : index < length subs) by (apply nth_error_Some; congruence).
    destruct (all_orderly callback (JsSetFacts.nth_error_values _ _ _ E) this)
      as (Hc & Hsub & Hinv).
    destruct (IH (S index) (final (body callback payload this)))
      as (r & Hr & Hrc & Hrs & Hri); [congruence | lia |].
    unfold and_then. rewrite invoke_run. simpl. rewrite Hc, Hr.
    eexists. split; [reflexivity|]. simpl.
    split; [exact Hrc|]. split; [exact Hrs|].
    rewrite invocations_app, Hinv, Hri, (skipn_nth_error_Some _ _ _ E).
    reflexivity.
  - assert (Hi : index < length subs) by (apply nth_error_Some; congruence).
    destruct (IH (S index) this) as (r & Hr & Hrc & Hrs & Hri); [exact Hs | lia |].
    exists r. rewrite (skipn_nth_error_Some _ _ _ E). auto.
  - eexists. split; [reflexivity|].
    rewrite (skipn_nth_error_None _ _ E). auto.
Qed.

End Orderly.

(** When the first member left throws, the loop ends there with its
    exception: the members after it are not called. *)
Lemma forEach_first_throws error fuel :
  forall index this callback rest,
    JsSet.values (skipn index (subscribers this)) = callback :: rest ->
    completion (body callback payload this) = Throw error ->
    length (subscribers this) - index < fuel ->
    forEach fuel (fun callback => invoke body callback payload) index this
    = Some {| completion := Throw error;
              final := final (body callback payload this);
              trace := Invoke callback payload
                       :: trace (body callback payload this) |}.
Proof.
  induction fuel as [|fuel IH]; intros index this callback rest Hv Ht Hlt; [lia|].
  simpl.
  destruct (nth_error (subscribers this) index) as [[c|]|] eqn:E.
  - rewrite (skipn_nth_error_Some _ _ _ E) in Hv. simpl in Hv.
    injection Hv as -> _.
    unfold and_then. rewrite invoke_run. simpl. rewrite Ht. reflexivity.
  - assert (Hi : index < length (subscribers this))
      by (apply nth_error_Some; congruence).
    rewrite (skipn_nth_error_Some _ _ _ E) in Hv. simpl in Hv.
    apply (IH (S index) this callback rest Hv Ht). lia.
  - rewrite (skipn_nth_error_None _ _ E) in Hv. discriminate Hv.
Qed.

End DispatchFacts.

Lemma handleMessage_orderly body fuel event this :
  (forall callback, In callback (JsSet.values (subscribers this)) ->
                    orderly body callback (data event)) ->
  length (subscribers this) < fuel ->
  exists r,
    handleMessage body fuel event this = Some r
    /\ completion r = Normal tt
    /\ subscribers (final r) = subscribers this
    /\ invocations (trace r)
       = map (fun callback => (callback, data event))
             (JsSet.values (subscribers this)).
Proof.
  intros Q Hlt.
  destruct (forEach_orderly body (data event) (subscribers this) Q fuel 0 this)
    as (r & Hr & Hc & Hs & Hi); [reflexivity | lia |].
  unfold handleMessage, and_then. rewrite log_run. simpl. rewrite Hr.
  eexists. split; [reflexivity|]. simpl.
  split; [exact Hc|]. split; [exact Hs|].
  rewrite invocations_app, Hi.
  destruct (debug (options this)); reflexivity.
Qed.

(** A subscriber that throws ends the dispatch: when the first registered
    callback throws, no other callback is called and the exception leaves
    [handleMessage]. *)
Lemma handleMessage_first_throws body fuel event this callback rest error :
  JsSet.values (subscribers this) = callback :: rest ->
  completion (body callback (data event) this) = Throw error ->
  invocations (trace (body callback (data event) this)) = [] ->
  length (subscribers this) < fuel ->
  exists r,
    handleMessage body fuel event this = Some r
    /\ completion r = Throw error
    /\ invocations (trace r) = [(callback, data event)].
Proof.
  intros Hv Ht Hi Hlt.
  unfold handleMessage, and_then. rewrite log_run. simpl.
  rewrite (forEach_first_throws body (data event) error fuel 0 this callback rest)
    by (auto; lia).
  eexists. split; [reflexivity|]. simpl. split; [reflexivity|].
  rewrite invocations_app. simpl. rewrite Hi.
  destruct (debug (options this)); reflexivity.
Qed.

(** A send from inside a subscriber is orderly when the payload can be
    cloned. *)
Lemma sendMessage_calls_no_subscriber payload this :
  invocations (trace (sendMessage payload this)) = [].
Proof.
  fields this. unfold sendMessage, port_postMessage.
  destruct p, d, (structured_cloneable payload) eqn:E; cbn; rewrite ?E; reflexivity.
Qed.

Lemma sendMessage_string_completes text this :
  completion (sendMessage (VString text) this) = Normal tt.
Proof. fields this. destruct p, d; reflexivity. Qed.

Lemma first_replies_orderly callback payload :
  orderly first_replies callback payload.
Proof.
  intros this. unfold first_replies. destruct (Nat.eqb callback 1).
  - rewrite sendMessage_string_completes, sendMessage_final,
      sendMessage_calls_no_subscriber. auto.
  - auto.
Qed.

(** C2, amended: when every registered callback returns normally and makes
    no change to the Set of subscribers while it runs (it adds no entry and
    removes none, not even to add it back), a message that arrives on the
    port is dispatched to the end, and the calls made are exactly one call
    per registered callback, in iteration order, each with the payload as
    it arrived. *)
Theorem handleMessage_delivers_to_all body fuel event this :
  (forall callback, In callback (JsSet.values (subscribers this)) ->
                    orderly body callback (data event)) ->
  length (subscribers this) < fuel ->
  exists r,
    handleMessage body fuel event this = Some r
    /\ completion r = Normal tt
    /\ invocations (trace r)
       = map (fun callback => (callback, data event))
             (JsSet.values (subscribers this))
    /\ length (invocations (trace r)) = JsSet.size (subscribers this).
Proof.
  intros Q Hlt.
  destruct (handleMessage_orderly body fuel event this Q Hlt)
    as (r & Hr & Hc & _ & Hi).
  exists r. repeat split; auto.
  rewrite Hi. unfold JsSet.size. apply length_map.
Qed.

Lemma handleMessage_delivers_to_all_witness :
  exists r,
    handleMessage first_replies 3 (inbound (VObject [("type", VString "x")]))
      two_subscribers_connected = Some r
    /\ invocations (trace r)
       = [(1, VObject [("type", VString "x")]);
          (2, VObject [("type", VString "x")])].
Proof.
  destruct (handleMessage_delivers_to_all first_replies 3
              (inbound (VObject [("type", VString "x")]))
              two_subscribers_connected)
    as (r & Hr & _ & Hi & _).
  - intros callback _. apply first_replies_orderly.
  - simpl. lia.
  - exists r. split; [exact Hr | exact Hi].
Defined.

(** C2 as stated fails: on a connected bridge with subscribers 1 and 2
    registered and subscriber 1 throwing, a message that arrives on the
    port ends with the exception after one call, and subscriber 2, which is
    registered, is never called. *)
Lemma handleMessage_stops_at_a_throw :
  port two_subscribers_connected = Some 5
  /\ exists r,
       handleMessage first_throws 10 (inbound (VString "x"))
         two_subscribers_connected = Some r
       /\ completion r = Throw (VString "boom")
       /\ In 2 (JsSet.values (subscribers two_subscribers_connected))
       /\ ~ In (2, VString "x") (invocations (trace r))
       /\ length (invocations (trace r))
          <> JsSet.size (subscribers two_subscribers_connected).
Proof.
  split; [reflexivity|].
  eexists. split; [reflexivity|]. simpl.
  split; [reflexivity|]. split; [tauto|]. split.
  - intros [H|[]]. discriminate H.
  - discriminate.
Qed.

(** A callback that removes itself from the Set and adds itself back leaves
    the members, their order and their number as they were, and is called
    again all the same, at its new entry: three calls for two callbacks. *)
Lemma handleMessage_calls_a_readded_callback_again :
  exists r,
    handleMessage second_resubscribes_once 10 (inbound (VString "x"))
      two_subscribers_connected = Some r
    /\ completion r = Normal tt
    /\ JsSet.values (subscribers (final r))
       = JsSet.values (subscribers two_subscribers_connected)
    /\ invocations (trace r)
       = [(1, VString "x"); (2, VString "x"); (2, VString "x")].
Proof. eexists. split; [reflexivity|]. repeat split. Qed.

(** A subscriber that disconnects the bridge while a message is dispatched
    blanks the entries not visited yet: the dispatch completes normally
    without calling subscriber 2. *)
Lemma handleMessage_after_a_disconnect_inside :
  let connected := final (capturePort (handshake [5]) two_subscribers) in
  handleMessage first_disconnects 10 (inbound (VString "bye")) connected
  = Some {| completion := Normal tt;
            final := final (disconnect connected);
            trace := [Invoke 1 (VString "bye"); PortClose 5] |}.
Proof. reflexivity. Qed.

(** ** The registry stays a set *)

Lemma capturePort_subscribers event this :
  subscribers (final (capturePort event this)) = subscribers this.
Proof.
  fields this. destruct event as [dat org src prts].
  unfold capturePort. cbn.
  destruct (strict_equals_string dat cmd), prts, d; reflexivity.
Qed.

Lemma perform_wf c this :
  JsSet.wf (subscribers this) -> JsSet.wf (subscribers (final (perform c this))).
Proof.
  intros W. destruct c; unfold perform.
  - now rewrite capturePort_subscribers.
  - now rewrite sendMessage_final.
  - unfold bind. destruct (subscribe_run callback this) as (-> & -> & _).
    simpl. apply JsSetFacts.add_wf, W.
  - destruct (unsubscribe_run callback this) as (_ & -> & _).
    simpl. apply JsSetFacts.delete_wf, W.
  - exact W.
  - exact W.
  - destruct (disconnect_run this) as (_ & -> & _).
    simpl. apply JsSetFacts.clear_wf.
Qed.

Lemma new_FlutterBridge_fields has_window o :
  final (new_FlutterBridge has_window o)
  = {| port := None; subscribers := JsSet.empty; options := resolve_options o |}.
Proof.
  unfold new_FlutterBridge, constructor_body.
  destruct has_window, o as [[[|]|] c m]; reflexivity.
Qed.

(** No bridge a program can hold has a callback registered twice. *)
Lemma reachable_wf this : reachable this -> JsSet.wf (subscribers this).
Proof.
  induction 1 as [has_window o | this c _ IH].
  - rewrite new_FlutterBridge_fields. apply JsSetFacts.empty_wf.
  - apply perform_wf, IH.
Qed.

Lemma two_subscribers_reachable : reachable two_subscribers.
Proof.
  exact (reachable_call _ (CallSubscribe 2)
           (reachable_call _ (CallSubscribe 1)
              (reachable_new true
                 {| opt_debug := Some false;
                    opt_captureCommand := None;
                    opt_confirmationMessage := None |}))).
Qed.

(** ** Registering a callback again *)

Lemma subscribe_present callback this :
  JsSet.has callback (subscribers this) = true ->
  final (subscribe callback this) = this.
Proof.
  intros H. destruct (subscribe_run callback this) as (_ & -> & _).
  rewrite JsSetFacts.add_present by exact H. now destruct this.
Qed.

Lemma map_fst_pairs {A B} (b : B) (l : list A) :
  map fst (map (fun a => (a, b)) l) = l.
Proof. induction l as [|x l IH]; simpl; congruence. Qed.

(** C7, amended: [subscribe(callback)] with the callback registered already
    leaves the fields as they were: the registry is still a set, holds the
    callback once, and the subscriber count is what it was; and when every
    registered callback returns normally and makes no change to the Set of
    subscribers while it runs (it adds no entry and removes none, not even
    to add it back), a message that arrives afterwards calls the callback
    exactly once, with the payload as it arrived. *)
Theorem subscribe_again_is_single_membership callback this :
  JsSet.wf (subscribers this) ->
  JsSet.has callback (subscribers this) = true ->
  let r := subscribe callback this in
  completion r = Normal (unsubscribe callback)
  /\ final r = this
  /\ JsSet.wf (subscribers (final r))
  /\ count_occ Nat.eq_dec (JsSet.values (subscribers (final r))) callback = 1
  /\ getConnectionStatus (final r) = getConnectionStatus this
  /\ JsSet.size (subscribers (final r)) = JsSet.size (subscribers this)
  /\ forall body fuel event,
       (forall c, In c (JsSet.values (subscribers this)) ->
                  orderly body c (data event)) ->
       length (subscribers this) < fuel ->
       exists r',
         handleMessage body fuel event (final r) = Some r'
         /\ completion r' = Normal tt
         /\ count_occ Nat.eq_dec (map fst (invocations (trace r'))) callback = 1
         /\ forall c payload,
              In (c, payload) (invocations (trace r')) -> payload = data event.
Proof.
  intros W H r.
  destruct (subscribe_run callback this) as (Hc & _ & _). fold r in Hc.
  assert (Hf : final r = this) by (apply subscribe_present, H).
  assert (Once : count_occ Nat.eq_dec (JsSet.values (subscribers this)) callback = 1).
  { apply NoDup_count_occ'; [exact W | now apply JsSetFacts.has_spec]. }
  rewrite Hf. repeat split; auto.
  intros body fuel event Q Hlt.
  destruct (handleMessage_orderly body fuel event this Q Hlt)
    as (r' & Hr' & Hc' & _ & Hi).
  exists r'. repeat split; auto.
  - now rewrite Hi, map_fst_pairs.
  - intros c payload Hin. rewrite Hi in Hin.
    apply in_map_iff in Hin. destruct Hin as (x & [= _ <-] & _). reflexivity.
Qed.

Lemma subscribe_again_witness :
  JsSet.wf (subscribers two_subscribers_connected)
  /\ JsSet.has 2 (subscribers two_subscribers_connected) = true
  /\ final (subscribe 2 two_subscribers_connected) = two_subscribers_connected
  /\ exists r',
       handleMessage first_replies 3 (inbound (VString "x"))
         (final (subscribe 2 two_subscribers_connected)) = Some r'
       /\ count_occ Nat.eq_dec (map fst (invocations (trace r'))) 2 = 1.
Proof.
  assert (W : JsSet.wf (subscribers two_subscribers_connected)).
  { vm_compute. repeat constructor; simpl; intuition discriminate. }
  split; [exact W|]. split; [reflexivity|].
  pose proof (subscribe_again_is_single_membership 2 two_subscribers_connected
                W eq_refl)
    as (_ & Hf & _ & _ & _ & _ & Hd).
  split; [exact Hf|].
  destruct (Hd first_replies 3 (inbound (VString "x"))) as (r' & Hr' & _ & Hn & _).
  - intros c _. apply first_replies_orderly.
  - simpl. lia.
  - exists r'. split; [exact Hr' | exact Hn].
Defined.

(** C7 as stated fails on its last part: on a connected bridge subscriber 2
    is registered, is registered again, and a message arrives on the port;
    subscriber 1, called first, throws, and subscriber 2 is called zero
    times, not once. *)
Lemma subscribe_again_then_throwing_neighbour :
  port two_subscribers_connected = Some 5
  /\ JsSet.has 2 (subscribers two_subscribers_connected) = true
  /\ exists r,
       handleMessage first_throws 10 (inbound (VString "x"))
         (final (subscribe 2 two_subscribers_connected)) = Some r
       /\ completion r = Throw (VString "boom")
       /\ count_occ Nat.eq_dec (map fst (invocations (trace r))) 2 = 0.
Proof.
  split; [reflexivity|]. split; [reflexivity|].
  eexists. split; [reflexivity|]. split; reflexivity.
Qed.

(** ** What reading, sending and capturing leave alone *)

(** C10, amended: [isConnected()], [getConnectionStatus()] and
    [sendMessage(payload)], with or without a port and also when the send
    throws, leave every field as it was; a successful capture leaves the
    registry as it was and installs the message handler on the port it
    binds, so the callbacks subscribed before the handshake are still
    registered after it, and a message that arrives then calls each of them
    when every registered callback returns normally and makes no change to
    the Set of subscribers while it runs (it adds no entry and removes
    none, not even to add it back). *)
Theorem reads_sends_and_capture_keep_the_registry this :
  final (isConnected this) = this
  /\ final (getConnectionStatus this) = this
  /\ (forall payload,
        final (sendMessage payload this) = this
        /\ port (final (sendMessage payload this)) = port this
        /\ subscribers (final (sendMessage payload this)) = subscribers this)
  /\ forall event p rest,
       data event = VString (captureCommand (options this)) ->
       ports event = p :: rest ->
       let r := capturePort event this in
       subscribers (final r) = subscribers this
       /\ port (final r) = Some p
       /\ In (PortSetOnMessage p) (trace r)
       /\ (forall callback,
             JsSet.has callback (subscribers (final r))
             = JsSet.has callback (subscribers this))
       /\ forall body fuel message,
            (forall c, In c (JsSet.values (subscribers this)) ->
                       orderly body c (data message)) ->
            length (subscribers this) < fuel ->
            exists r',
              handleMessage body fuel message (final r) = Some r'
              /\ completion r' = Normal tt
              /\ forall callback,
                   JsSet.has callback (subscribers this) = true ->
                   In (callback, data message) (invocations (trace r')).
Proof.
  split; [reflexivity|]. split; [reflexivity|]. split.
  { intros payload. rewrite sendMessage_final. repeat split. }
  intros event p rest Hd Hp r.
  assert (Hs : subscribers (final r) = subscribers this)
    by apply capturePort_subscribers.
  destruct (capturePort_accepts event this p rest Hd Hp)
    as (_ & Hf & _ & _ & _ & Hset).
  fold r in Hf, Hset.
  split; [exact Hs|]. split; [now rewrite Hf|]. split; [exact Hset|].
  split; [intros; now rewrite Hs|].
  intros body fuel message Q Hlt.
  destruct (handleMessage_orderly body fuel message (final r))
    as (r' & Hr' & Hc' & _ & Hi).
  - now rewrite Hs.
  - now rewrite Hs.
  - exists r'. repeat split; auto.
    intros callback Hin. rewrite Hi, Hs.
    apply JsSetFacts.has_spec in Hin.
    apply in_map_iff. exists callback. split; [reflexivity | exact Hin].
Qed.

Lemma reads_sends_and_capture_witness :
  final (sendMessage (VString "ping") two_subscribers) = two_subscribers
  /\ subscribers (final (capturePort (handshake [5]) two_subscribers))
     = subscribers two_subscribers
  /\ exists r',
       handleMessage first_replies 3 (inbound (VString "x"))
         (final (capturePort (handshake [5]) two_subscribers)) = Some r'
       /\ In (2, VString "x") (invocations (trace r')).
Proof.
  pose proof (reads_sends_and_capture_keep_the_registry two_subscribers)
    as (_ & _ & Hsend & Hcap).
  split; [exact (proj1 (Hsend (VString "ping")))|].
  destruct (Hcap (handshake [5]) 5 [] eq_refl eq_refl)
    as (Hs & _ & _ & _ & Hd).
  split; [exact Hs|].
  destruct (Hd first_replies 3 (inbound (VString "x"))) as (r' & Hr' & _ & Hin).
  - intros c _. apply first_replies_orderly.
  - simpl. lia.
  - exists r'. split; [exact Hr' | exact (Hin 2 eq_refl)].
Defined.

(** C10 as stated fails on its last part: subscribers 1 and 2 are
    registered before the handshake, the handshake succeeds, a message
    arrives; subscriber 1 throws and subscriber 2 does not receive the
    message. *)
Lemma subscribed_before_handshake_then_throwing_neighbour :
  let connected := final (capturePort (handshake [5]) two_subscribers) in
  JsSet.has 2 (subscribers two_subscribers) = true
  /\ completion (isConnected connected) = Normal true
  /\ subscribers connected = subscribers two_subscribers
  /\ exists r,
       handleMessage first_throws 10 (inbound (VString "x")) connected = Some r
       /\ completion r = Throw (VString "boom")
       /\ ~ In (2, VString "x") (invocations (trace r)).
Proof.
  intros connected. repeat (split; [reflexivity|]).
  eexists. split; [reflexivity|]. split; [reflexivity|].
  simpl. intros [H|[]]. discriminate H.
Qed.

(** ** The scenario of the specification *)

(** A bridge with the default options and two subscribers: the handshake
    is confirmed on the port carried, a message on the port reaches both
    subscribers once, and after [disconnect()] the bridge reports no port
    and no subscriber. *)
Example handshake_message_disconnect :
  let fresh := final (new_FlutterBridge true no_options) in
  let subscribed := final (subscribe 2 (final (subscribe 1 fresh))) in
  let captured := capturePort (handshake [9]) subscribed in
  let message := inbound (VObject [("type", VString "x")]) in
  posts (trace captured) = [(9, VString "portReceived")]
  /\ exists delivered,
       handleMessage first_replies 3 message (final captured) = Some delivered
       /\ invocations (trace delivered)
          = [(1, data message); (2, data message)]
       /\ posts (trace delivered) = [(9, VString "ack")]
       /\ let closed := final (disconnect (final delivered)) in
          completion (isConnected closed) = Normal false
          /\ completion (getConnectionStatus closed)
             = Normal {| hasPort := false; subscribersCount := 0 |}.
Proof.
  split; [reflexivity|].
  eexists. split; [reflexivity|]. repeat split.
Qed.

(** ** What every call has in common *)

Lemma perform_facts c this :
  let r := perform c this in
  options (final r) = options this
  /\ invocations (trace r) = []
  /\ (debug (options this) = false -> existsb is_log (trace r) = false)
  /\ (forall q v, In (q, v) (posts (trace r)) -> port (final r) = Some q)
  /\ (forall q, In q (closes (trace r)) -> port this = Some q)
  /\ port (final r) = bound_after (options this) [c] (port this).
Proof.
  destruct this as [p s [d cmd msg]].
  destruct c as [[dat org src prts]|payload|callback|callback| | |];
    [ unfold perform, capturePort, bound_after; cbn; unfold qualifies; cbn;
      destruct (strict_equals_string dat cmd), prts, d
    | unfold perform, sendMessage, port_postMessage;
      destruct p, d, (structured_cloneable payload) eqn:Eclone; cbn;
      rewrite ?Eclone
    | destruct d
    | destruct d
    | idtac
    | idtac
    | destruct p, d ];
    cbn;
    repeat split; try reflexivity; try discriminate; intros; simpl in *;
    intuition (try discriminate; try congruence).
Qed.

Lemma closes_app tr tr' : closes (tr ++ tr') = closes tr ++ closes tr'.
Proof. induction tr as [|[] tr IH]; simpl; congruence. Qed.

Lemma posts_app tr tr' : posts (tr ++ tr') = posts tr ++ posts tr'.
Proof. induction tr as [|[] tr IH]; simpl; congruence. Qed.

Lemma session_cons c cs this :
  final (session (c :: cs) this) = final (session cs (final (perform c this)))
  /\ trace (session (c :: cs) this)
     = trace (perform c this) ++ trace (session cs (final (perform c this))).
Proof. split; reflexivity. Qed.

Lemma session_options cs :
  forall this, options (final (session cs this)) = options this.
Proof.
  induction cs as [|c cs IH]; intros this; [reflexivity|].
  rewrite (proj1 (session_cons c cs this)), IH.
  apply perform_facts.
Qed.

(** X1: the options a bridge works with are those resolved by its
    constructor, whatever calls are made afterwards: no call changes the
    debug flag, the capture command or the confirmation message. *)
Theorem options_are_fixed_at_construction has_window o cs :
  options (final (session cs (final (new_FlutterBridge has_window o))))
  = resolve_options o.
Proof.
  rewrite session_options, new_FlutterBridge_fields. reflexivity.
Qed.

(** X2: with debug mode off no call writes to the console at log level,
    whatever the calls and their order: all the console gets is
    warnings. *)
Theorem no_log_without_debug cs :
  forall this,
    debug (options this) = false ->
    existsb is_log (trace (session cs this)) = false
    /\ forallb (fun e => negb (is_diagnostic e) || is_warning e)
               (trace (session cs this)) = true.
Proof.
  induction cs as [|c cs IH]; intros this Hd; [split; reflexivity|].
  rewrite (proj2 (session_cons c cs this)).
  destruct (perform_facts c this) as (Ho & _ & Hlog & _).
  destruct (IH (final (perform c this))) as (IH1 & IH2); [now rewrite Ho|].
  specialize (Hlog Hd).
  rewrite existsb_app, forallb_app, Hlog, IH1, IH2.
  split; [reflexivity|]. rewrite andb_true_r.
  clear - Hlog. induction (trace (perform c this)) as [|e tr IHtr]; [reflexivity|].
  simpl in *. apply orb_false_iff in Hlog. destruct Hlog as (He & Htr).
  rewrite (IHtr Htr), andb_true_r. destruct e; simpl in *; congruence.
Qed.

Lemma no_log_without_debug_witness :
  debug (options two_subscribers) = false
  /\ existsb is_log
       (trace (session [CallSendMessage (VString "early");
                        CallCapturePort (handshake [5]);
                        CallSubscribe 3;
                        CallDisconnect] two_subscribers)) = false.
Proof.
  split; [reflexivity|].
  exact (proj1 (no_log_without_debug _ two_subscribers eq_refl)).
Defined.

(** X3: no public method and no handshake calls a subscriber: subscribers
    are called from [handleMessage] only, so a callback gets nothing at the
    moment it subscribes, whatever was dispatched before. *)
Theorem calls_invoke_no_subscriber cs :
  forall this, invocations (trace (session cs this)) = [].
Proof.
  induction cs as [|c cs IH]; intros this; [reflexivity|].
  rewrite (proj2 (session_cons c cs this)), invocations_app, IH.
  destruct (perform_facts c this) as (_ & -> & _). reflexivity.
Qed.

Lemma bound_after_cons o c cs before :
  bound_after o (c :: cs) before = bound_after o cs (bound_after o [c] before).
Proof. reflexivity. Qed.

(** X4: the port a bridge holds after any calls is the first port of the
    last handshake that passed the test of [capturePort], unless a
    [disconnect] came after it; no other call touches the port. *)
Theorem port_after_session cs :
  forall this,
    port (final (session cs this)) = bound_after (options this) cs (port this).
Proof.
  induction cs as [|c cs IH]; intros this; [reflexivity|].
  rewrite (proj1 (session_cons c cs this)), IH, bound_after_cons.
  destruct (perform_facts c this) as (-> & _ & _ & _ & _ & ->). reflexivity.
Qed.

(** A message a call posts goes over the port that is bound when the call
    returns. *)
Lemma posts_of_a_call c this q v :
  In (q, v) (posts (trace (perform c this))) ->
  port (final (perform c this)) = Some q.
Proof. apply perform_facts. Qed.

Lemma no_port_no_posts c this :
  port (final (perform c this)) = None -> posts (trace (perform c this)) = [].
Proof.
  intros Hn. destruct (posts (trace (perform c this))) as [|[q v] l] eqn:E;
    [reflexivity|].
  assert (H : In (q, v) (posts (trace (perform c this))))
    by (rewrite E; now left).
  apply posts_of_a_call in H. congruence.
Qed.

(** X5: every message the bridge posts, confirmation or payload, goes over
    the port bound at that moment; in particular no call posts anything
    while the bridge holds no port at its return. *)
Theorem posts_go_over_the_bound_port c this :
  (forall q v, In (q, v) (posts (trace (perform c this))) ->
               port (final (perform c this)) = Some q)
  /\ (port (final (perform c this)) = None ->
      posts (trace (perform c this)) = []).
Proof.
  split; [intros q v; apply posts_of_a_call | apply no_port_no_posts].
Qed.

Lemma posts_go_over_the_bound_port_witness :
  In (5, VString "ping")
     (posts (trace (perform (CallSendMessage (VString "ping"))
                      two_subscribers_connected)))
  /\ port (final (perform (CallSendMessage (VString "ping"))
                    two_subscribers_connected)) = Some 5
  /\ posts (trace (perform (CallSendMessage (VString "ping")) two_subscribers))
     = [].
Proof.
  assert (H : In (5, VString "ping")
                (posts (trace (perform (CallSendMessage (VString "ping"))
                                 two_subscribers_connected))))
    by (simpl; tauto).
  split; [exact H|].
  split.
  - exact (proj1 (posts_go_over_the_bound_port _ _) 5 (VString "ping") H).
  - exact (proj2 (posts_go_over_the_bound_port
                    (CallSendMessage (VString "ping")) two_subscribers) eq_refl).
Defined.

(** X6: the bridge closes no port but the one it holds: a port that is not
    bound and is not carried first by a later handshake is never closed,
    whatever calls follow.  So the port a second handshake has replaced
    stays open. *)
Theorem unbound_port_is_never_closed q cs :
  forall this,
    port this <> Some q ->
    (forall event, In (CallCapturePort event) cs ->
                   qualifies (options this) event = true ->
                   nth_error (ports event) 0 <> Some q) ->
    ~ In q (closes (trace (session cs this))).
Proof.
  induction cs as [|c cs IH]; intros this Hp Hc; [simpl; tauto|].
  rewrite (proj2 (session_cons c cs this)), closes_app.
  intros Hin. apply in_app_or in Hin.
  destruct (perform_facts c this) as (Ho & _ & _ & _ & Hcl & Hport).
  destruct Hin as [Hin|Hin].
  - apply Hp, Hcl, Hin.
  - revert Hin. apply IH.
    + rewrite Hport. destruct c; simpl; try exact Hp; try discriminate.
      destruct (qualifies (options this) event) eqn:Q; [|exact Hp].
      apply Hc; [now left | exact Q].
    + intros event Hin. rewrite Ho. apply Hc. now right.
Qed.

Lemma unbound_port_is_never_closed_witness :
  let replaced := final (capturePort (handshake [8]) two_subscribers_connected) in
  let ignored := {| data := VString "hello"; origin := "flutter";
                    source := None; ports := [5] |} in
  port replaced <> Some 5
  /\ ~ In 5 (closes (trace (session [CallSendMessage (VString "ping");
                                     CallCapturePort ignored;
                                     CallDisconnect;
                                     CallCapturePort (handshake [9]);
                                     CallDisconnect]
                              replaced))).
Proof.
  intros replaced ignored.
  assert (H : port replaced <> Some 5) by (simpl; discriminate).
  split; [exact H|].
  apply (unbound_port_is_never_closed 5 _ _ H).
  intros event [E|[E|[E|[E|[E|[]]]]]]; try discriminate E;
    injection E as <-; simpl; discriminate.
Defined.

(** ** [sendMessage] with a port *)

(** X7: on a connected bridge [sendMessage(payload)] posts the payload as
    it is, once, over the bound port and warns of nothing, when the
    payload can be cloned; when it cannot, the exception of [postMessage]
    leaves [sendMessage] and nothing is posted.  The fields stay as they
    were either way. *)
Theorem sendMessage_with_port payload this q :
  port this = Some q ->
  let r := sendMessage payload this in
  final r = this
  /\ existsb is_warning (trace r) = false
  /\ (structured_cloneable payload = true ->
      completion r = Normal tt /\ posts (trace r) = [(q, payload)])
  /\ (structured_cloneable payload = false ->
      completion r = Throw DataCloneError /\ posts (trace r) = []).
Proof.
  intros Hp r. split; [apply sendMessage_final|].
  subst r. destruct this as [p s [d cmd msg]]. simpl in Hp. subst p.
  unfold sendMessage, port_postMessage.
  destruct d, (structured_cloneable payload); cbn;
    repeat split; intros; try reflexivity; discriminate.
Qed.

Lemma sendMessage_with_port_witness :
  port two_subscribers_connected = Some 5
  /\ posts (trace (sendMessage (VObject [("type", VString "x")])
                     two_subscribers_connected))
     = [(5, VObject [("type", VString "x")])]
  /\ completion (sendMessage (VArray [VFunction 0]) two_subscribers_connected)
     = Throw DataCloneError.
Proof.
  split; [reflexivity|].
  pose proof (sendMessage_with_port (VObject [("type", VString "x")])
                two_subscribers_connected 5 eq_refl) as (_ & _ & Hok & _).
  pose proof (sendMessage_with_port (VArray [VFunction 0])
                two_subscribers_connected 5 eq_refl) as (_ & _ & _ & Hno).
  split; [exact (proj2 (Hok eq_refl)) | exact (proj1 (Hno eq_refl))].
Defined.

(** ** The registry over a session *)

Lemma has_clear x s : JsSet.has x (JsSet.clear s) = false.
Proof.
  apply JsSetFacts.has_false. rewrite JsSetFacts.values_clear. simpl. tauto.
Qed.

Lemma perform_registered callback c this :
  JsSet.wf (subscribers this) ->
  JsSet.has callback (subscribers (final (perform c this)))
  = registered_after callback [c] (JsSet.has callback (subscribers this)).
Proof.
  intros W. destruct c as [event|payload|x|x| | |];
    unfold perform, registered_after; cbn [fold_left].
  - now rewrite capturePort_subscribers.
  - now rewrite sendMessage_final.
  - unfold bind. destruct (subscribe_run x this) as (-> & -> & _).
    cbn [final ret subscribers].
    destruct (Nat.eqb_spec x callback) as [->|N].
    + apply JsSetFacts.has_add_same.
    + apply JsSetFacts.has_add_other. congruence.
  - destruct (unsubscribe_run x this) as (_ & -> & _). cbn [subscribers].
    destruct (Nat.eqb_spec x callback) as [->|N].
    + apply JsSetFacts.has_delete_same, W.
    + apply JsSetFacts.has_delete_other. congruence.
  - reflexivity.
  - reflexivity.
  - destruct (disconnect_run this) as (_ & -> & _). apply has_clear.
Qed.

(** X8: whether a callback is registered after any calls is decided by the
    last call that concerns it: registered when that is its [subscribe],
    not registered when it is its unsubscribe closure or a [disconnect].
    Handshakes, sends and status reads change no membership. *)
Theorem registered_after_session callback cs :
  forall this,
    JsSet.wf (subscribers this) ->
    JsSet.has callback (subscribers (final (session cs this)))
    = registered_after callback cs (JsSet.has callback (subscribers this)).
Proof.
  induction cs as [|c cs IH]; intros this W; [reflexivity|].
  rewrite (proj1 (session_cons c cs this)), IH by (apply perform_wf, W).
  rewrite (perform_registered callback c this W). reflexivity.
Qed.

Lemma registered_after_session_witness :
  JsSet.wf (subscribers two_subscribers)
  /\ JsSet.has 2 (subscribers
                    (final (session [CallUnsubscribe 2; CallSubscribe 2;
                                     CallCapturePort (handshake [5])]
                              two_subscribers))) = true
  /\ JsSet.has 1 (subscribers
                    (final (session [CallSubscribe 1; CallDisconnect;
                                     CallCapturePort (handshake [5])]
                              two_subscribers))) = false.
Proof.
  assert (W : JsSet.wf (subscribers two_subscribers)).
  { vm_compute. repeat constructor; simpl; intuition discriminate. }
  split; [exact W|]. split.
  - exact (registered_after_session 2 _ two_subscribers W).
  - exact (registered_after_session 1 _ two_subscribers W).
Defined.

(** ** [subscribe] followed by its closure *)

Lemma delete_app_absent x s s' :
  JsSet.has x s = false -> JsSet.delete x (s ++ s') = s ++ JsSet.delete x s'.
Proof.
  induction s as [|e s IH]; simpl; [reflexivity|].
  destruct (JsSet.holds x e); [discriminate|]. simpl. intros H. now rewrite IH.
Qed.

Lemma size_delete_present x s :
  JsSet.has x s = true -> S (JsSet.size (JsSet.delete x s)) = JsSet.size s.
Proof.
  unfold JsSet.size.
  induction s as [|[y|] s IH]; simpl; [discriminate| |exact IH].
  destruct (Nat.eqb y x); simpl; [reflexivity|]. intros H. now rewrite IH.
Qed.

(** X9: for a callback that is not registered, [subscribe] raises the
    subscriber count by one, and calling the closure it returned gives the
    registry its former members back, in their former order, and the
    former count; the port is not touched. *)
Theorem subscribe_then_unsubscribe_restores callback this :
  JsSet.has callback (subscribers this) = false ->
  let r0 := subscribe callback this in
  let r1 := unsubscribe callback (final r0) in
  JsSet.size (subscribers (final r0)) = S (JsSet.size (subscribers this))
  /\ completion r1 = Normal tt
  /\ JsSet.values (subscribers (final r1)) = JsSet.values (subscribers this)
  /\ getConnectionStatus (final r1) = ret
       {| hasPort := is_some (port this);
          subscribersCount := JsSet.size (subscribers this) |} (final r1)
  /\ port (final r1) = port this.
Proof.
  intros H r0 r1.
  destruct (subscribe_run callback this) as (_ & Hf0 & _).
  destruct (unsubscribe_run callback (final r0)) as (Hc1 & Hf1 & _).
  fold r0 in Hf0. fold r1 in Hc1, Hf1.
  assert (Hv : JsSet.values (subscribers (final r1))
               = JsSet.values (subscribers this)).
  { rewrite Hf1, Hf0. simpl. unfold JsSet.add. rewrite H.
    rewrite delete_app_absent by exact H. simpl.
    rewrite Nat.eqb_refl, JsSetFacts.values_app. simpl. apply app_nil_r. }
  split.
  { rewrite Hf0. simpl. unfold JsSet.add, JsSet.size. rewrite H.
    rewrite JsSetFacts.values_app, length_app. simpl. lia. }
  split; [exact Hc1|]. split; [exact Hv|]. split.
  - rewrite getConnectionStatus_run. unfold JsSet.size. rewrite Hv.
    rewrite Hf1, Hf0. reflexivity.
  - rewrite Hf1, Hf0. reflexivity.
Qed.

Lemma subscribe_then_unsubscribe_witness :
  JsSet.has 3 (subscribers two_subscribers) = false
  /\ JsSet.values
       (subscribers (final (unsubscribe 3 (final (subscribe 3 two_subscribers)))))
     = JsSet.values (subscribers two_subscribers).
Proof.
  split; [reflexivity|].
  exact (proj1 (proj2 (proj2
           (subscribe_then_unsubscribe_restores 3 two_subscribers eq_refl)))).
Defined.

(** X10: the closure removes by callback, not by subscription: when the
    callback was registered before [subscribe(callback)] was called, the
    closure of this second [subscribe] removes it altogether, so that the
    count ends one below what it was before the pair of calls. *)
Theorem unsubscribe_removes_shared_callback callback this :
  JsSet.wf (subscribers this) ->
  JsSet.has callback (subscribers this) = true ->
  let r0 := subscribe callback this in
  let r1 := unsubscribe callback (final r0) in
  completion r1 = Normal tt
  /\ JsSet.has callback (subscribers (final r1)) = false
  /\ S (JsSet.size (subscribers (final r1))) = JsSet.size (subscribers this).
Proof.
  intros W H r0 r1.
  destruct (unsubscribe_run callback (final r0)) as (Hc1 & Hf1 & _).
  fold r1 in Hc1, Hf1.
  assert (Hf0 : final r0 = this) by (apply subscribe_present, H).
  rewrite Hf0 in Hf1. rewrite Hf1. simpl.
  split; [exact Hc1|]. split.
  - apply JsSetFacts.has_delete_same, W.
  - apply size_delete_present, H.
Qed.

Lemma unsubscribe_removes_shared_callback_witness :
  JsSet.wf (subscribers two_subscribers)
  /\ JsSet.has 2 (subscribers two_subscribers) = true
  /\ JsSet.has 2 (subscribers
                    (final (unsubscribe 2 (final (subscribe 2 two_subscribers)))))
     = false.
Proof.
  assert (W : JsSet.wf (subscribers two_subscribers)).
  { vm_compute. repeat constructor; simpl; intuition discriminate. }
  split; [exact W|]. split; [reflexivity|].
  exact (proj1 (proj2
           (unsubscribe_removes_shared_callback 2 two_subscribers W eq_refl))).
Defined.

(** ** Dispatch over a registry that changes *)

Lemma length_delete x s : length (JsSet.delete x s) = length s.
Proof.
  induction s as [|e s IH]; simpl; [reflexivity|].
  destruct (JsSet.holds x e); simpl; congruence.
Qed.

Lemma skipn_delete_absent x s :
  forall i, ~ In x (JsSet.values (skipn i s)) ->
            skipn i (JsSet.delete x s) = skipn i s.
Proof.
  induction s as [|e s IH]; intros [|i] H; try reflexivity.
  - apply JsSetFacts.delete_absent, JsSetFacts.has_false, H.
  - simpl. destruct (JsSet.holds x e); simpl; [reflexivity | apply IH, H].
Qed.

Lemma values_skipn_NoDup s i :
  JsSet.wf s -> NoDup (JsSet.values (skipn i s)).
Proof.
  unfold JsSet.wf. rewrite <- (firstn_skipn i s) at 1.
  rewrite JsSetFacts.values_app. apply NoDup_app_remove_l.
Qed.

Section DispatchOverBlanks.

Variable f : MessageCallback -> M unit.

(** Blank entries are passed over without a call. *)
Lemma forEach_blank fuel :
  forall index this,
    JsSet.values (skipn index (subscribers this)) = [] ->
    length (subscribers this) - index < fuel ->
    forEach fuel f index this = Some (ret tt this).
Proof.
  induction fuel as [|fuel IH]; intros index this Hv Hlt; [lia|].
  simpl. destruct (nth_error (subscribers this) index) as [[c|]|] eqn:E.
  - rewrite (skipn_nth_error_Some _ _ _ E) in Hv. discriminate Hv.
  - assert (Hi : index < length (subscribers this))
      by (apply nth_error_Some; congruence).
    rewrite (skipn_nth_error_Some _ _ _ E) in Hv. apply IH; [exact Hv | lia].
  - reflexivity.
Qed.

End DispatchOverBlanks.

Lemma skipn_clear s : forall i, JsSet.values (skipn i (JsSet.clear s)) = [].
Proof.
  induction s as [|e s IH]; intros [|i]; simpl; try reflexivity.
  - apply (JsSetFacts.values_clear s).
  - apply IH.
Qed.

Section OneShot.

Variable body : MessageCallback -> Value -> M unit.
Variable payload : Value.
Variable subs : JsSet.t.
Variable once : MessageCallback.

Hypothesis subs_wf : JsSet.wf subs.
Hypothesis once_unsubscribes :
  forall this, body once payload this = unsubscribe once this.
Hypothesis others_orderly :
  forall callback, In callback (JsSet.values subs) -> callback <> once ->
                   orderly body callback payload.

(** The entries after the one of [once], once it has blanked itself. *)
Lemma forEach_after_once fuel index this :
  subscribers this = JsSet.delete once subs ->
  ~ In once (JsSet.values (skipn index subs)) ->
  length subs - index < fuel ->
  exists r,
    forEach fuel (fun callback => invoke body callback payload) index this
    = Some r
    /\ completion r = Normal tt
    /\ subscribers (final r) = JsSet.delete once subs
    /\ invocations (trace r)
       = map (fun callback => (callback, payload))
             (JsSet.values (skipn index subs)).
Proof.
  intros Hs Hn Hlt.
  destruct (forEach_orderly body payload (JsSet.delete once subs))
    with (fuel := fuel) (index := index) (this := this)
    as (r & Hr & Hc & Hf & Hi).
  - intros callback Hin. apply others_orderly.
    + eapply JsSetFacts.values_delete_incl, Hin.
    + intros ->. apply JsSetFacts.has_spec in Hin.
      rewrite JsSetFacts.has_delete_same in Hin by exact subs_wf.
      discriminate Hin.
  - exact Hs.
  - rewrite length_delete. exact Hlt.
  - exists r. rewrite skipn_delete_absent in Hi by exact Hn. auto.
Qed.

(** The entries up to the one of [once]. *)
Lemma forEach_before_once fuel :
  forall index this,
    subscribers this = subs ->
    In once (JsSet.values (skipn index subs)) ->
    length subs - index < fuel ->
    exists r,
      forEach fuel (fun callback => invoke body callback payload) index this
      = Some r
      /\ completion r = Normal tt
      /\ subscribers (final r) = JsSet.delete once subs
      /\ invocations (trace r)
         = map (fun callback => (callback, payload))
               (JsSet.values (skipn index subs)).
Proof.
  induction fuel as [|fuel IH]; intros index this Hs Hin Hlt; [lia|].
  simpl. rewrite Hs.
  destruct (nth_error subs index) as [[callback|]|] eqn:E.
  - assert (Hi : index < length subs) by (apply nth_error_Some; congruence).
    pose proof (values_skipn_NoDup subs index subs_wf) as ND.
    rewrite (skipn_nth_error_Some _ _ _ E) in Hin, ND. simpl in Hin, ND.
    rewrite (skipn_nth_error_Some _ _ _ E). simpl.
    unfold and_then. rewrite invoke_run. simpl.
    destruct (Nat.eq_dec callback once) as [->|N].
    + rewrite once_unsubscribes.
      destruct (unsubscribe_run once this) as (Hc & Hf & Hd).
      apply diagnostic_silent in Hd. destruct Hd as (_ & _ & Hinv).
      rewrite Hc.
      destruct (forEach_after_once fuel (S index) (final (unsubscribe once this)))
        as (r & Hr & Hrc & Hrs & Hri).
      * rewrite Hf, Hs. reflexivity.
      * now inversion ND.
      * lia.
      * rewrite Hr. eexists. split; [reflexivity|].
        cbn [completion final trace invocations].
        split; [exact Hrc|]. split; [exact Hrs|].
        rewrite invocations_app, Hinv, Hri. reflexivity.
    + destruct (others_orderly callback
                  (JsSetFacts.nth_error_values _ _ _ E) N this)
        as (Hc & Hsub & Hinv).
      rewrite Hc.
      destruct (IH (S index) (final (body callback payload this)))
        as (r & Hr & Hrc & Hrs & Hri).
      * congruence.
      * destruct Hin as [Heq|Hin]; [contradiction | exact Hin].
      * lia.
      * rewrite Hr. eexists. split; [reflexivity|]. simpl.
        split; [exact Hrc|]. split; [exact Hrs|].
        rewrite invocations_app, Hinv, Hri. reflexivity.
  - assert (Hi : index < length subs) by (apply nth_error_Some; congruence).
    rewrite (skipn_nth_error_Some _ _ _ E) in Hin. simpl in Hin.
    destruct (IH (S index) this Hs Hin) as (r & Hr & Hrc & Hrs & Hri); [lia|].
    exists r. rewrite (skipn_nth_error_Some _ _ _ E). auto.
  - rewrite (skipn_nth_error_None _ _ E) in Hin. destruct Hin.
Qed.

End OneShot.

(** X11: a subscriber may unsubscribe itself while a message is dispatched
    (a listener for one message): when the others return normally and leave
    the registry alone, every registered callback, this one included, is
    called once with the payload, the dispatch completes normally, and
    afterwards the callback is no longer registered while the others
    are. *)
Theorem one_shot_subscriber body fuel event this once :
  JsSet.wf (subscribers this) ->
  JsSet.has once (subscribers this) = true ->
  (forall b, body once (data event) b = unsubscribe once b) ->
  (forall callback, In callback (JsSet.values (subscribers this)) ->
                    callback <> once -> orderly body callback (data event)) ->
  length (subscribers this) < fuel ->
  exists r,
    handleMessage body fuel event this = Some r
    /\ completion r = Normal tt
    /\ invocations (trace r)
       = map (fun callback => (callback, data event))
             (JsSet.values (subscribers this))
    /\ JsSet.has once (subscribers (final r)) = false
    /\ forall other, other <> once ->
         JsSet.has other (subscribers (final r))
         = JsSet.has other (subscribers this).
Proof.
  intros W Hin Hb Ho Hlt.
  destruct (forEach_before_once body (data event) (subscribers this) once
              W Hb Ho fuel 0 this)
    as (r & Hr & Hc & Hs & Hi); [reflexivity | | lia |].
  { now apply JsSetFacts.has_spec. }
  unfold handleMessage, and_then. rewrite log_run. simpl. rewrite Hr.
  eexists. split; [reflexivity|]. simpl.
  split; [exact Hc|]. split.
  { rewrite invocations_app, Hi. destruct (debug (options this)); reflexivity. }
  rewrite Hs. split.
  - apply JsSetFacts.has_delete_same, W.
  - intros other N. apply JsSetFacts.has_delete_other, N.
Qed.

Lemma one_shot_subscriber_witness :
  JsSet.has 1 (subscribers two_subscribers) = true
  /\ exists r,
       handleMessage first_unsubscribes_itself 3 (inbound (VString "x"))
         two_subscribers = Some r
       /\ invocations (trace r) = [(1, VString "x"); (2, VString "x")]
       /\ JsSet.has 1 (subscribers (final r)) = false.
Proof.
  split; [reflexivity|].
  destruct (one_shot_subscriber first_unsubscribes_itself 3
              (inbound (VString "x")) two_subscribers 1)
    as (r & Hr & _ & Hi & Hgone & _).
  - vm_compute. repeat constructor; simpl; intuition discriminate.
  - reflexivity.
  - intros b. reflexivity.
  - intros callback _ N b. unfold first_unsubscribes_itself.
    destruct (Nat.eqb_spec callback 1); [contradiction|]. repeat split.
  - simpl. lia.
  - exists r. split; [exact Hr|]. split; [exact Hi | exact Hgone].
Defined.

(** ** [disconnect] and dispatch *)

Lemma handleMessage_blank body fuel event this :
  JsSet.values (subscribers this) = [] ->
  length (subscribers this) < fuel ->
  exists r,
    handleMessage body fuel event this = Some r
    /\ completion r = Normal tt
    /\ final r = this
    /\ invocations (trace r) = [].
Proof.
  intros Hv Hlt. unfold handleMessage, and_then. rewrite log_run.
  cbn [completion final trace].
  rewrite forEach_blank; [ | exact Hv | lia ].
  eexists. split; [reflexivity|]. cbn [completion final trace ret].
  repeat split. rewrite app_nil_r.
  destruct (debug (options this)); reflexivity.
Qed.

(** X12: [disconnect()] does not end the life of a bridge: a handshake
    that comes after it connects the bridge again, to the port it carries,
    but the subscribers of before are gone: the subscriber count is 0 and a
    message that arrives then calls nobody, whatever the subscribers used to
    be. *)
Theorem handshake_after_disconnect this event q rest body fuel message :
  data event = VString (captureCommand (options this)) ->
  ports event = q :: rest ->
  length (subscribers this) < fuel ->
  let again := final (capturePort event (final (disconnect this))) in
  port again = Some q
  /\ getConnectionStatus again
     = ret {| hasPort := true; subscribersCount := 0 |} again
  /\ exists r,
       handleMessage body fuel message again = Some r
       /\ completion r = Normal tt
       /\ invocations (trace r) = [].
Proof.
  intros Hd Hp Hlt again.
  destruct (disconnect_run this) as (_ & Hf & _).
  assert (Ho : options (final (disconnect this)) = options this)
    by now rewrite Hf.
  destruct (capturePort_accepts event (final (disconnect this)) q rest)
    as (_ & Hf' & _); [now rewrite Ho | exact Hp |].
  fold again in Hf'. rewrite Hf in Hf'. simpl in Hf'.
  assert (Hv : JsSet.values (subscribers again) = []).
  { rewrite Hf'. apply JsSetFacts.values_clear. }
  split; [now rewrite Hf'|]. split.
  - rewrite getConnectionStatus_run. unfold JsSet.size. rewrite Hv.
    rewrite Hf'. reflexivity.
  - destruct (handleMessage_blank body fuel message again Hv)
      as (r & Hr & Hc & _ & Hi).
    + rewrite Hf'. simpl. unfold JsSet.clear. now rewrite length_map.
    + exists r. auto.
Qed.

Lemma handshake_after_disconnect_witness :
  let again :=
    final (capturePort (handshake [9])
             (final (disconnect two_subscribers_connected))) in
  port again = Some 9
  /\ exists r,
       handleMessage first_throws 3 (inbound (VString "x")) again = Some r
       /\ invocations (trace r) = [].
Proof.
  intros again.
  destruct (handshake_after_disconnect two_subscribers_connected (handshake [9])
              9 [] first_throws 3 (inbound (VString "x")) eq_refl eq_refl)
    as (Hp & _ & r & Hr & _ & Hi).
  - simpl. lia.
  - split; [exact Hp|]. exists r. split; [exact Hr | exact Hi].
Defined.

Section EndOfDispatch.

Variable body : MessageCallback -> Value -> M unit.
Variable payload : Value.

(** The loop up to a member that disconnects the bridge: the members
    before it are called, it is called, and the entries after it are blank
    by the time the loop reaches them. *)
Lemma forEach_until_disconnect fuel :
  forall index this before callback rest,
    JsSet.values (skipn index (subscribers this))
    = before ++ callback :: rest ->
    (forall c, In c before -> orderly body c payload) ->
    (forall b, body callback payload b = disconnect b) ->
    length (subscribers this) - index < fuel ->
    exists r,
      forEach fuel (fun c => invoke body c payload) index this = Some r
      /\ completion r = Normal tt
      /\ invocations (trace r)
         = map (fun c => (c, payload)) (before ++ [callback])
      /\ port (final r) = None
      /\ JsSet.size (subscribers (final r)) = 0.
Proof.
  induction fuel as [|fuel IH];
    intros index this before callback rest Hv Ho Hb Hlt; [lia|].
  simpl.
  destruct (nth_error (subscribers this) index) as [[c|]|] eqn:E.
  - assert (Hi : index < length (subscribers this))
      by (apply nth_error_Some; congruence).
    rewrite (skipn_nth_error_Some _ _ _ E) in Hv. simpl in Hv.
    unfold and_then. rewrite invoke_run.
    destruct before as [|b before]; simpl in Hv; injection Hv as -> Hv.
    + rewrite Hb. destruct (disconnect_run this) as (Hc & Hf & _ & _ & Hinv).
      cbn [completion final trace]. rewrite Hc.
      rewrite forEach_blank.
      * eexists. split; [reflexivity|]. cbn [completion final trace ret].
        rewrite app_nil_r. cbn [invocations]. rewrite Hinv, Hf.
        cbn [port subscribers]. rewrite JsSetFacts.size_clear. repeat split.
      * rewrite Hf. apply skipn_clear.
      * rewrite Hf. simpl. unfold JsSet.clear. rewrite length_map. lia.
    + destruct (Ho b (or_introl eq_refl) this) as (Hc & Hsub & Hinv).
      cbn [completion final trace]. rewrite Hc.
      destruct (IH (S index) (final (body b payload this)) before callback rest)
        as (r & Hr & Hrc & Hri & Hrp & Hrs).
      * now rewrite Hsub.
      * intros c0 Hc0. apply Ho. now right.
      * exact Hb.
      * rewrite Hsub. lia.
      * rewrite Hr. eexists. split; [reflexivity|].
        cbn [completion final trace].
        rewrite invocations_app. cbn [invocations]. rewrite Hinv, Hri. repeat split; assumption.
  - assert (Hi : index < length (subscribers this))
      by (apply nth_error_Some; congruence).
    rewrite (skipn_nth_error_Some _ _ _ E) in Hv. simpl in Hv.
    apply (IH (S index) this before callback rest Hv Ho Hb). lia.
  - rewrite (skipn_nth_error_None _ _ E) in Hv.
    destruct before; discriminate Hv.
Qed.

(** The loop up to a member that throws: the members before it are called,
    it is called, and its exception ends the loop. *)
Lemma forEach_until_throw error fuel :
  forall index this before callback rest,
    JsSet.values (skipn index (subscribers this))
    = before ++ callback :: rest ->
    (forall c, In c before -> orderly body c payload) ->
    (forall b, completion (body callback payload b) = Throw error
               /\ invocations (trace (body callback payload b)) = []) ->
    length (subscribers this) - index < fuel ->
    exists r,
      forEach fuel (fun c => invoke body c payload) index this = Some r
      /\ completion r = Throw error
      /\ invocations (trace r)
         = map (fun c => (c, payload)) (before ++ [callback]).
Proof.
  induction fuel as [|fuel IH];
    intros index this before callback rest Hv Ho Hb Hlt; [lia|].
  simpl.
  destruct (nth_error (subscribers this) index) as [[c|]|] eqn:E.
  - assert (Hi : index < length (subscribers this))
      by (apply nth_error_Some; congruence).
    rewrite (skipn_nth_error_Some _ _ _ E) in Hv. simpl in Hv.
    unfold and_then. rewrite invoke_run.
    destruct before as [|b before]; simpl in Hv; injection Hv as -> Hv.
    + destruct (Hb this) as (Hc & Hinv).
      cbn [completion final trace]. rewrite Hc.
      eexists. split; [reflexivity|]. cbn [completion trace invocations].
      rewrite Hinv. split; reflexivity.
    + destruct (Ho b (or_introl eq_refl) this) as (Hc & Hsub & Hinv).
      cbn [completion final trace]. rewrite Hc.
      destruct (IH (S index) (final (body b payload this)) before callback rest)
        as (r & Hr & Hrc & Hri).
      * now rewrite Hsub.
      * intros c0 Hc0. apply Ho. now right.
      * exact Hb.
      * rewrite Hsub. lia.
      * rewrite Hr. eexists. split; [reflexivity|].
        cbn [completion final trace].
        rewrite invocations_app. cbn [invocations]. rewrite Hinv, Hri. split; [assumption | reflexivity].
  - assert (Hi : index < length (subscribers this))
      by (apply nth_error_Some; congruence).
    rewrite (skipn_nth_error_Some _ _ _ E) in Hv. simpl in Hv.
    apply (IH (S index) this before callback rest Hv Ho Hb). lia.
  - rewrite (skipn_nth_error_None _ _ E) in Hv.
    destruct before; discriminate Hv.
Qed.

End EndOfDispatch.

(** X13: a subscriber that calls [disconnect()] when it gets a message ends
    the delivery of that message without an exception: the callbacks
    registered before it (returning normally, leaving the registry alone)
    and itself are called, those registered after it are not, the dispatch
    completes normally and leaves the bridge without port and without
    subscriber. *)
Theorem disconnect_inside_dispatch body fuel event this before callback rest :
  JsSet.values (subscribers this) = before ++ callback :: rest ->
  (forall c, In c before -> orderly body c (data event)) ->
  (forall b, body callback (data event) b = disconnect b) ->
  length (subscribers this) < fuel ->
  exists r,
    handleMessage body fuel event this = Some r
    /\ completion r = Normal tt
    /\ invocations (trace r)
       = map (fun c => (c, data event)) (before ++ [callback])
    /\ port (final r) = None
    /\ JsSet.size (subscribers (final r)) = 0.
Proof.
  intros Hv Ho Hb Hlt.
  destruct (forEach_until_disconnect body (data event) fuel 0 this
              before callback rest Hv Ho Hb)
    as (r & Hr & Hc & Hi & Hp & Hs); [lia|].
  unfold handleMessage, and_then. rewrite log_run.
  cbn [completion final trace]. rewrite Hr.
  eexists. split; [reflexivity|]. cbn [completion final trace].
  rewrite invocations_app, Hi.
  destruct (debug (options this)); repeat split; assumption.
Qed.

Lemma disconnect_inside_dispatch_witness :
  JsSet.values (subscribers two_subscribers_connected) = [] ++ 1 :: [2]
  /\ exists r,
       handleMessage first_disconnects 3 (inbound (VString "bye"))
         two_subscribers_connected = Some r
       /\ invocations (trace r) = [(1, VString "bye")]
       /\ port (final r) = None.
Proof.
  split; [reflexivity|].
  destruct (disconnect_inside_dispatch first_disconnects 3
              (inbound (VString "bye")) two_subscribers_connected [] 1 [2])
    as (r & Hr & _ & Hi & Hp & _).
  - reflexivity.
  - intros c [].
  - intros b. reflexivity.
  - simpl. lia.
  - exists r. split; [exact Hr|]. split; [exact Hi | exact Hp].
Defined.

(** X17: a subscriber that throws ends the delivery of the message with its
    exception: the callbacks registered before it and itself are called,
    those registered after it are not, and the exception leaves
    [handleMessage]. *)
Theorem throw_inside_dispatch body fuel event this before callback rest error :
  JsSet.values (subscribers this) = before ++ callback :: rest ->
  (forall c, In c before -> orderly body c (data event)) ->
  (forall b, completion (body callback (data event) b) = Throw error
             /\ invocations (trace (body callback (data event) b)) = []) ->
  length (subscribers this) < fuel ->
  exists r,
    handleMessage body fuel event this = Some r
    /\ completion r = Throw error
    /\ invocations (trace r)
       = map (fun c => (c, data event)) (before ++ [callback]).
Proof.
  intros Hv Ho Hb Hlt.
  destruct (forEach_until_throw body (data event) error fuel 0 this
              before callback rest Hv Ho Hb)
    as (r & Hr & Hc & Hi); [lia|].
  unfold handleMessage, and_then. rewrite log_run.
  cbn [completion final trace]. rewrite Hr.
  eexists. split; [reflexivity|]. cbn [completion final trace].
  rewrite invocations_app, Hi.
  destruct (debug (options this)); split; auto.
Qed.

Lemma throw_inside_dispatch_witness :
  JsSet.values (subscribers two_subscribers) = [] ++ 1 :: [2]
  /\ exists r,
       handleMessage first_throws 3 (inbound (VString "x")) two_subscribers
       = Some r
       /\ completion r = Throw (VString "boom")
       /\ invocations (trace r) = [(1, VString "x")].
Proof.
  split; [reflexivity|].
  destruct (throw_inside_dispatch first_throws 3 (inbound (VString "x"))
              two_subscribers [] 1 [2] (VString "boom"))
    as (r & Hr & Hc & Hi).
  - reflexivity.
  - intros c [].
  - intros b. split; reflexivity.
  - simpl. lia.
  - exists r. split; [exact Hr|]. split; [exact Hc | exact Hi].
Defined.

(** ** The debug log of a message *)

(** X14: in debug mode the log line of a received message shows the empty
    string in place of a falsy payload (0, NaN, the empty string, [false],
    [null], [undefined]), while the subscribers still get the payload
    itself. *)
Theorem falsy_payload_is_logged_as_empty_string body fuel event this :
  debug (options this) = true ->
  truthy (data event) = false ->
  (forall callback, In callback (JsSet.values (subscribers this)) ->
                    orderly body callback (data event)) ->
  length (subscribers this) < fuel ->
  exists r rest,
    handleMessage body fuel event this = Some r
    /\ trace r
       = ConsoleLog "[FlutterBridge] Message received from Flutter:"
                    (VString EmptyString) :: rest
    /\ invocations (trace r)
       = map (fun callback => (callback, data event))
             (JsSet.values (subscribers this)).
Proof.
  intros Hd Hf Q Hlt.
  destruct (forEach_orderly body (data event) (subscribers this) Q fuel 0 this)
    as (r & Hr & Hc & Hs & Hi); [reflexivity | lia |].
  unfold handleMessage, and_then. rewrite log_run, Hd.
  cbn [completion final trace]. rewrite Hr.
  unfold js_or. rewrite Hf.
  eexists. exists (trace r). split; [reflexivity|].
  cbn [trace]. split; [reflexivity|].
  cbn [app invocations]. exact Hi.
Qed.

Lemma falsy_payload_witness :
  debug (options two_subscribers_debug) = true
  /\ truthy (VNumber (S754_zero false)) = false
  /\ exists r rest,
       handleMessage first_replies 3 (inbound (VNumber (S754_zero false)))
         two_subscribers_debug = Some r
       /\ trace r
          = ConsoleLog "[FlutterBridge] Message received from Flutter:"
                       (VString EmptyString) :: rest
       /\ invocations (trace r)
          = [(1, VNumber (S754_zero false)); (2, VNumber (S754_zero false))].
Proof.
  split; [reflexivity|]. split; [reflexivity|].
  destruct (falsy_payload_is_logged_as_empty_string first_replies 3
              (inbound (VNumber (S754_zero false))) two_subscribers_debug
              eq_refl eq_refl)
    as (r & rest & Hr & Ht & Hi).
  - intros callback _. apply first_replies_orderly.
  - simpl. lia.
  - exists r, rest. split; [exact Hr|]. split; [exact Ht | exact Hi].
Defined.

(** ** The page *)

Lemma open_page_listeners has_window o :
  listeners (open_page has_window o)
  = if has_window
    then CapturePortListener
         :: (if debug (resolve_options o) then [DebugListener] else [])
    else [].
Proof. destruct has_window, o as [[[|]|] c m]; reflexivity. Qed.

Lemma open_page_bridge has_window o :
  bridge (open_page has_window o)
  = {| port := None; subscribers := JsSet.empty; options := resolve_options o |}.
Proof. apply new_FlutterBridge_fields. Qed.

Lemma debugListener_run event this :
  completion (debugListener event this) = Normal tt
  /\ final (debugListener event this) = this
  /\ forallb is_diagnostic (trace (debugListener event this)) = true.
Proof.
  unfold debugListener. rewrite log_run. simpl.
  destruct (debug (options this)); repeat split.
Qed.

Lemma listener_body_options l event this :
  options (final (listener_body l event this)) = options this.
Proof.
  destruct l; cbn [listener_body].
  - apply (perform_facts (CallCapturePort event) this).
  - now rewrite (proj1 (proj2 (debugListener_run event this))).
Qed.

Lemma dispatchEvent_options ls event :
  forall this, options (final (dispatchEvent ls event this)) = options this.
Proof.
  induction ls as [|l ls IH]; intros this; [reflexivity|].
  cbn [dispatchEvent final]. rewrite IH. apply listener_body_options.
Qed.

Lemma react_options ls i this :
  options (final (react ls i this)) = options this.
Proof.
  destruct i; cbn [react]; try apply perform_facts.
  apply dispatchEvent_options.
Qed.

Lemma page_session_options ls inputs :
  forall this, options (final (page_session ls inputs this)) = options this.
Proof.
  induction inputs as [|i inputs IH]; intros this; [reflexivity|].
  cbn [page_session final]. rewrite IH. apply react_options.
Qed.

Lemma react_without_listener i this :
  port this = None ->
  port (final (react [] i this)) = None
  /\ posts (trace (react [] i this)) = [].
Proof.
  intros Hp.
  assert (G : forall c, bound_after (options this) [c] None = None ->
                        port (final (perform c this)) = None
                        /\ posts (trace (perform c this)) = []).
  { intros c Hc.
    assert (Hn : port (final (perform c this)) = None).
    { destruct (perform_facts c this) as (_ & _ & _ & _ & _ & ->).
      now rewrite Hp. }
    split; [exact Hn | apply no_port_no_posts, Hn]. }
  destruct i; cbn [react]; try (apply G; reflexivity).
  split; [exact Hp | reflexivity].
Qed.

(** X15: a bridge constructed where there is no [window] warns once and
    registers no listener, so no message to the window and no public call
    ever connects it: [isConnected()] stays false and nothing is ever
    posted. *)
Theorem page_without_window_never_connects o inputs :
  let page := open_page false o in
  let r := page_session (listeners page) inputs (bridge page) in
  existsb is_warning (trace (new_FlutterBridge false o)) = true
  /\ listeners page = []
  /\ port (final r) = None
  /\ completion (isConnected (final r)) = Normal false
  /\ posts (trace r) = [].
Proof.
  intros page r. subst r page.
  rewrite open_page_listeners, open_page_bridge.
  split; [destruct o as [[[|]|] c m]; reflexivity|].
  split; [reflexivity|].
  assert (G : forall this, port this = None ->
                port (final (page_session [] inputs this)) = None
                /\ posts (trace (page_session [] inputs this)) = []).
  { induction inputs as [|i inputs IH]; intros this Hp; [split; [exact Hp | reflexivity]|].
    destruct (react_without_listener i this Hp) as (Hp' & Hposts).
    destruct (IH _ Hp') as (IHp & IHposts).
    cbn [page_session final trace]. rewrite posts_app, Hposts, IHposts.
    split; [exact IHp | reflexivity]. }
  destruct (G {| port := None; subscribers := JsSet.empty;
                 options := resolve_options o |} eq_refl) as (Hp & Hposts).
  split; [exact Hp|]. split; [|exact Hposts].
  rewrite isConnected_run, Hp. reflexivity.
Qed.

(** X16: in a browser the constructor leaves [capturePort] on the window
    once (and the logging listener beside it in debug mode only), so at any
    time in the life of the page, whatever the options, a window message
    with the configured command and a port binds the first port carried,
    posts the confirmation once over it, closes nothing and keeps the
    subscribers. *)
Theorem window_handshake_connects o inputs event q rest :
  let page := open_page true o in
  let this := final (page_session (listeners page) inputs (bridge page)) in
  data event = VString (captureCommand (resolve_options o)) ->
  ports event = q :: rest ->
  let r := react (listeners page) (WindowMessage event) this in
  port (final r) = Some q
  /\ posts (trace r)
     = [(q, VString (confirmationMessage (resolve_options o)))]
  /\ closes (trace r) = []
  /\ subscribers (final r) = subscribers this.
Proof.
  intros page this Hd Hp r.
  assert (Ho : options this = resolve_options o).
  { subst this. rewrite page_session_options. subst page.
    now rewrite open_page_bridge. }
  rewrite <- Ho in Hd |- *.
  destruct (capturePort_accepts event this q rest Hd Hp)
    as (_ & Hf & Hposts & Hcl & _ & _).
  destruct (debugListener_run event (final (capturePort event this)))
    as (_ & Hdf & Hdd).
  apply diagnostic_silent in Hdd. destruct Hdd as (Hdp & Hdc & _).
  subst r page. rewrite open_page_listeners.
  destruct (debug (resolve_options o));
    cbn [react dispatchEvent listener_body final trace ret];
    rewrite ?Hdf, ?posts_app, ?closes_app, ?Hposts, ?Hcl, ?Hdp, ?Hdc, Hf;
    repeat split.
Qed.

Lemma window_handshake_connects_witness :
  let page := open_page true {| opt_debug := Some true;
                                opt_captureCommand := Some "hello";
                                opt_confirmationMessage := None |} in
  let this := final (page_session (listeners page)
                       [PageSubscribe 1;
                        WindowMessage (handshake [4]);
                        PageSendMessage (VString "early")]
                       (bridge page)) in
  port this = None
  /\ port (final (react (listeners page)
                    (WindowMessage {| data := VString "hello";
                                      origin := "flutter";
                                      source := None;
                                      ports := [7; 8] |}) this)) = Some 7.
Proof.
  intros page this. split; [reflexivity|].
  exact (proj1 (window_handshake_connects
                  {| opt_debug := Some true;
                     opt_captureCommand := Some "hello";
                     opt_confirmationMessage := None |}
                  [PageSubscribe 1;
                   WindowMessage (handshake [4]);
                   PageSendMessage (VString "early")]
                  {| data := VString "hello"; origin := "flutter";
                     source := None; ports := [7; 8] |}
                  7 [8] eq_refl eq_refl)).
Defined.

(** ** The order of delivery *)

Lemma perform_subscribe x this :
  final (perform (CallSubscribe x) this)
  = {| port := port this;
       subscribers := JsSet.add x (subscribers this);
       options := options this |}.
Proof.
  unfold perform, bind. destruct (subscribe_run x this) as (-> & -> & _).
  reflexivity.
Qed.

Lemma subscribe_all l :
  forall this,
    NoDup l ->
    (forall x, In x l -> JsSet.has x (subscribers this) = false) ->
    subscribers (final (session (map CallSubscribe l) this))
    = subscribers this ++ map Some l.
Proof.
  induction l as [|x l IH]; intros this ND Hnew.
  - simpl. now rewrite app_nil_r.
  - cbn [map]. rewrite (proj1 (session_cons _ _ this)), IH.
    + rewrite perform_subscribe. cbn [subscribers]. unfold JsSet.add.
      rewrite (Hnew x (or_introl eq_refl)), <- app_assoc. reflexivity.
    + now inversion ND.
    + intros y Hy. rewrite perform_subscribe. cbn [subscribers].
      rewrite JsSetFacts.has_add_other.
      * apply Hnew. now right.
      * intros ->. inversion ND. contradiction.
Qed.

Lemma values_map_Some l : JsSet.values (map Some l) = l.
Proof. induction l as [|x l IH]; simpl; congruence. Qed.

(** X18: subscribers are called in the order of their subscription: on a
    new bridge to which distinct callbacks have subscribed one after the
    other, a message calls them in that order, each once, when they return
    normally and leave the registry alone. *)
Theorem delivery_follows_subscription_order
  has_window o l body fuel event :
  NoDup l ->
  (forall callback, In callback l -> orderly body callback (data event)) ->
  length l < fuel ->
  let this := final (session (map CallSubscribe l)
                       (final (new_FlutterBridge has_window o))) in
  JsSet.values (subscribers this) = l
  /\ exists r,
       handleMessage body fuel event this = Some r
       /\ completion r = Normal tt
       /\ invocations (trace r) = map (fun callback => (callback, data event)) l.
Proof.
  intros ND Q Hlt this.
  assert (Hs : subscribers this = map Some l).
  { subst this. rewrite subscribe_all; [| exact ND |].
    - now rewrite new_FlutterBridge_fields.
    - intros x _. now rewrite new_FlutterBridge_fields. }
  assert (Hv : JsSet.values (subscribers this) = l)
    by (rewrite Hs; apply values_map_Some).
  split; [exact Hv|].
  destruct (handleMessage_orderly body fuel event this)
    as (r & Hr & Hc & _ & Hi).
  - now rewrite Hv.
  - now rewrite Hs, length_map.
  - exists r. rewrite Hv in Hi. auto.
Qed.

Lemma delivery_follows_subscription_order_witness :
  exists r,
    handleMessage first_replies 4 (inbound (VString "x"))
      (final (session (map CallSubscribe [3; 1; 2])
                (final (new_FlutterBridge true no_options)))) = Some r
    /\ invocations (trace r)
       = [(3, VString "x"); (1, VString "x"); (2, VString "x")].
Proof.
  destruct (delivery_follows_subscription_order true no_options [3; 1; 2]
              first_replies 4 (inbound (VString "x")))
    as (_ & r & Hr & _ & Hi).
  - repeat constructor; simpl; intuition discriminate.
  - intros callback _. apply first_replies_orderly.
  - simpl. lia.
  - exists r. split; [exact Hr | exact Hi].
Defined.

Lemma values_delete x s :
  JsSet.wf s -> JsSet.values (JsSet.delete x s) = remove Nat.eq_dec x (JsSet.values s).
Proof.
  unfold JsSet.wf. induction s as [|[y|] s IH]; intros W; simpl; auto.
  inversion W as [|? ? Hy W']; subst.
  destruct (Nat.eqb_spec y x) as [->|N]; simpl.
  - destruct (Nat.eq_dec x x) as [_|N]; [|contradiction].
    symmetry. apply notin_remove, Hy.
  - destruct (Nat.eq_dec x y) as [E|_]; [congruence|].
    now rewrite IH.
Qed.

(** X19: a callback that unsubscribes and subscribes again goes to the end
    of the delivery order: the other callbacks keep their order and it is
    called after all of them from then on. *)
Theorem resubscribe_moves_to_the_end callback this :
  JsSet.wf (subscribers this) ->
  JsSet.has callback (subscribers this) = true ->
  let again := final (subscribe callback (final (unsubscribe callback this))) in
  JsSet.values (subscribers again)
  = remove Nat.eq_dec callback (JsSet.values (subscribers this)) ++ [callback]
  /\ JsSet.size (subscribers again) = JsSet.size (subscribers this)
  /\ port again = port this.
Proof.
  intros W H again.
  destruct (unsubscribe_run callback this) as (_ & Hf1 & _).
  destruct (subscribe_run callback (final (unsubscribe callback this)))
    as (_ & Hf2 & _).
  fold again in Hf2. rewrite Hf1 in Hf2. cbn [port subscribers options] in Hf2.
  assert (Hv : JsSet.values (subscribers again)
               = JsSet.values (JsSet.delete callback (subscribers this))
                 ++ [callback]).
  { rewrite Hf2. cbn [subscribers]. unfold JsSet.add.
    rewrite JsSetFacts.has_delete_same by exact W.
    now rewrite JsSetFacts.values_app. }
  split; [rewrite Hv, values_delete by exact W; reflexivity|].
  split; [|now rewrite Hf2].
  unfold JsSet.size at 1. rewrite Hv, length_app. simpl.
  rewrite <- (size_delete_present callback (subscribers this) H).
  unfold JsSet.size. lia.
Qed.

Lemma resubscribe_moves_to_the_end_witness :
  JsSet.wf (subscribers two_subscribers)
  /\ JsSet.has 1 (subscribers two_subscribers) = true
  /\ JsSet.values
       (subscribers (final (subscribe 1 (final (unsubscribe 1 two_subscribers)))))
     = [2; 1].
Proof.
  assert (W : JsSet.wf (subscribers two_subscribers)).
  { vm_compute. repeat constructor; simpl; intuition discriminate. }
  split; [exact W|]. split; [reflexivity|].
  exact (proj1 (resubscribe_moves_to_the_end 1 two_subscribers W eq_refl)).
Defined.

(** ** The closure of [subscribe], called again *)

Lemma session_keeps_unregistered callback cs :
  forall this,
    JsSet.wf (subscribers this) ->
    JsSet.has callback (subscribers this) = false ->
    (forall c, In c cs -> c <> CallSubscribe callback) ->
    JsSet.has callback (subscribers (final (session cs this))) = false.
Proof.
  induction cs as [|c cs IH]; intros this W H Hc; [exact H|].
  rewrite (proj1 (session_cons c cs this)). apply IH.
  - apply perform_wf, W.
  - rewrite (perform_registered callback c this W), H.
    unfold registered_after. cbn [fold_left].
    destruct c as [event|payload|x|x| | |]; try reflexivity.
    + destruct (Nat.eqb_spec x callback) as [->|N]; [|reflexivity].
      exfalso. apply (Hc (CallSubscribe callback)); [now left | reflexivity].
    + now destruct (Nat.eqb x callback).
  - intros c' Hin. apply Hc. now right.
Qed.

(** C5, amended: the closure returned by [subscribe(callback)] removes the
    callback at its first call and leaves the other callbacks registered.
    A later call of it returns normally and changes no field whenever the
    callback is not registered at that moment: so any number of calls in a
    row, and any call that comes after other calls of the page or
    handshakes among which the callback is not subscribed again. *)
Theorem unsubscribe_again_while_not_registered callback this :
  JsSet.wf (subscribers this) ->
  let r0 := subscribe callback this in
  let r1 := unsubscribe callback (final r0) in
  completion r0 = Normal (unsubscribe callback)
  /\ JsSet.has callback (subscribers (final r0)) = true
  /\ completion r1 = Normal tt
  /\ JsSet.has callback (subscribers (final r1)) = false
  /\ (forall other, other <> callback ->
        JsSet.has other (subscribers (final r1))
        = JsSet.has other (subscribers this))
  /\ port (final r1) = port this
  /\ (forall n,
        let rn := times n (unsubscribe callback) (final r1) in
        completion rn = Normal tt /\ final rn = final r1)
  /\ (forall later,
        JsSet.has callback (subscribers later) = false ->
        completion (unsubscribe callback later) = Normal tt
        /\ final (unsubscribe callback later) = later)
  /\ forall cs,
       (forall c, In c cs -> c <> CallSubscribe callback) ->
       let later := final (session cs (final r1)) in
       JsSet.has callback (subscribers later) = false
       /\ completion (unsubscribe callback later) = Normal tt
       /\ final (unsubscribe callback later) = later.
Proof.
  intros W r0 r1.
  destruct (subscribe_run callback this) as (Hc0 & Hf0 & _).
  destruct (unsubscribe_run callback (final r0)) as (Hc1 & Hf1 & _).
  fold r0 in Hc0, Hf0. fold r1 in Hc1, Hf1.
  assert (W1 : JsSet.wf (subscribers (final r1))).
  { rewrite Hf1, Hf0. simpl.
    apply JsSetFacts.delete_wf, JsSetFacts.add_wf, W. }
  assert (Hgone : JsSet.has callback (subscribers (final r1)) = false).
  { rewrite Hf1, Hf0. simpl.
    apply JsSetFacts.has_delete_same, JsSetFacts.add_wf, W. }
  assert (Noop : forall later,
             JsSet.has callback (subscribers later) = false ->
             completion (unsubscribe callback later) = Normal tt
             /\ final (unsubscribe callback later) = later).
  { intros later H. split.
    - apply unsubscribe_run.
    - apply unsubscribe_absent, H. }
  split; [exact Hc0|]. split.
  { rewrite Hf0. simpl. apply JsSetFacts.has_add_same. }
  split; [exact Hc1|]. split; [exact Hgone|]. split.
  { intros other N. rewrite Hf1, Hf0. simpl.
    rewrite JsSetFacts.has_delete_other by exact N.
    apply JsSetFacts.has_add_other, N. }
  split.
  { rewrite Hf1, Hf0. reflexivity. }
  split.
  { intros n. apply times_unsubscribe, Hgone. }
  split; [exact Noop|].
  intros cs Hcs later.
  assert (H : JsSet.has callback (subscribers later) = false)
    by (apply session_keeps_unregistered; assumption).
  split; [exact H | apply Noop, H].
Qed.

Lemma unsubscribe_again_witness :
  let first := final (unsubscribe 3 (final (subscribe 3 two_subscribers))) in
  let later := final (session [CallSubscribe 4;
                               CallCapturePort (handshake [5]);
                               CallSendMessage (VString "ping");
                               CallUnsubscribe 1] first) in
  JsSet.wf (subscribers two_subscribers)
  /\ final (times 2 (unsubscribe 3) first) = first
  /\ final (unsubscribe 3 later) = later.
Proof.
  intros first later.
  assert (W : JsSet.wf (subscribers two_subscribers)).
  { vm_compute. repeat constructor; simpl; intuition discriminate. }
  split; [exact W|].
  pose proof (unsubscribe_again_while_not_registered 3 two_subscribers W)
    as (_ & _ & _ & _ & _ & _ & Hn & _ & Hcs).
  split; [exact (proj2 (Hn 2))|].
  refine (proj2 (proj2 (Hcs [CallSubscribe 4;
                             CallCapturePort (handshake [5]);
                             CallSendMessage (VString "ping");
                             CallUnsubscribe 1] _))).
  intros c [E|[E|[E|[E|[]]]]]; subst c; discriminate.
Defined.

(** C5 as stated fails: callback 3 subscribes and its closure is called;
    callback 3 subscribes again; the closure of the first subscription,
    called once more, removes callback 3 from the registry, so this later
    call does have an effect. *)
Lemma stale_closure_removes_the_new_registration :
  let r0 := subscribe 3 two_subscribers in
  let once := final (unsubscribe 3 (final r0)) in
  let again := final (subscribe 3 once) in
  let twice := unsubscribe 3 again in
  completion r0 = Normal (unsubscribe 3)
  /\ JsSet.values (subscribers (final r0)) = [1; 2; 3]
  /\ JsSet.values (subscribers once) = [1; 2]
  /\ JsSet.values (subscribers again) = [1; 2; 3]
  /\ completion twice = Normal tt
  /\ JsSet.values (subscribers (final twice)) = [1; 2]
  /\ subscribers (final twice) <> subscribers again.
Proof.
  repeat split. simpl. discriminate.
Qed.
